(** * gfit-b100: a shallow embedding of [main.py]

    [main.py] is a command-line tool that writes fitness activities to the
    Google Fit REST API and deletes the records of the current day.  The
    program is a sequence of remote calls, each wrapped in
    [try ... except HttpError].  The embedding below keeps that shape:

    - request bodies are records that follow the dict literals of the source;
    - a remote call is answered by an oracle carried by the [World]; the
      answer is either a decoded response or an [HttpError];
    - every function of the source is a computation in a state-and-exception
      monad [M] over the [World]; the world records the chronological
      [trace] of remote calls, printed lines and authorization steps;
    - the two libraries the program leans on ([google.oauth2] /
      [google_auth_oauthlib] and [datetime]) are interfaces ([GoogleAuth],
      [DateTime]); nothing is assumed about them beyond their signatures.

    Modelling boundary: [HttpRequest.execute()] either returns or raises
    [HttpError]; transport-level exceptions, which no handler of [main.py]
    mentions, are outside the model, as are failures of the authorization
    library. *)

From Stdlib Require Import String Ascii ZArith List Bool Lia PrimFloat.
From Stdlib Require Import DecimalString.
Import ListNotations.

Local Open Scope Z_scope.
Local Open Scope string_scope.

(** ** Python values *)

(** [str(n)] for an [int]. *)
Definition str_int (z : Z) : string := NilZero.string_of_int (Z.to_int z).

(** [str(x)] for a value that is [None] or a string. *)
Definition str_opt (o : option string) : string :=
  match o with
  | Some s => s
  | None => "None"
  end.

(** Truth value of an object that is [None] or a string: [None] and the empty
    string are false. *)
Definition truthy_str (o : option string) : bool :=
  match o with
  | Some s => negb (String.eqb s "")
  | None => false
  end.

(** A Python number: [--calories] is parsed with [type=float], the default
    run passes the [int] 250. *)
Inductive number : Type :=
| PyInt (z : Z)
| PyFloat (f : float).

(** Truth value of a number: zero is false ([0], [0.0] and [-0.0]). *)
Definition truthy_number (n : number) : bool :=
  match n with
  | PyInt z => negb (Z.eqb z 0)
  | PyFloat f => negb (PrimFloat.eqb f 0%float)
  end.

(** Truth value of an optional argument ([None] or a value). *)
Definition truthy_calories (calories : option number) : bool :=
  match calories with
  | Some n => truthy_number n
  | None => false
  end.

Definition truthy_steps (steps : option Z) : bool :=
  match steps with
  | Some z => negb (Z.eqb z 0)
  | None => false
  end.

(** [p] is a prefix of [s]. *)
Fixpoint is_prefix (p s : string) : bool :=
  match p, s with
  | EmptyString, _ => true
  | String a p', String b s' => Ascii.eqb a b && is_prefix p' s'
  | String _ _, EmptyString => false
  end.

(** [sub in s] for two strings. *)
Fixpoint str_in (sub s : string) : bool :=
  is_prefix sub s ||
  match s with
  | EmptyString => false
  | String _ s' => str_in sub s'
  end.

(** The mathematical reading of [sub in s]. *)
Definition is_substring (sub s : string) : Prop :=
  exists l r, s = l ++ sub ++ r.

(** [l] is [l'] with some elements left out. *)
Inductive subsequence {A : Type} : list A -> list A -> Prop :=
| subsequence_nil : subsequence [] []
| subsequence_skip x l l' : subsequence l l' -> subsequence l (x :: l')
| subsequence_take x l l' : subsequence l l' -> subsequence (x :: l) (x :: l').

(** ** Constants of the source *)

Definition SCOPES : list string :=
  [ "https://www.googleapis.com/auth/fitness.activity.write";
    "https://www.googleapis.com/auth/fitness.activity.read" ].

Definition PROJECT_NUMBER : string := "394921715331".

(** ** Identifier of a data source *)

Definition get_data_source_id (data_type_name : string) : string :=
  "derived:" ++ data_type_name ++ ":" ++ PROJECT_NUMBER
    ++ ":microcloud:gfit-b100:1000001:" ++ data_type_name.

(** ** Request bodies *)

Record Field : Type := {
  field_name : string;
  field_format : string
}.

Record DataSourceApplication : Type := {
  app_name : string;
  app_version : string
}.

Record DataType : Type := {
  dt_name : string;
  dt_field : list Field
}.

Record Device : Type := {
  dev_uid : string;
  dev_type : string;
  dev_version : string;
  dev_model : string;
  dev_manufacturer : string
}.

Record DataSource : Type := {
  ds_dataStreamId : string;
  ds_dataStreamName : string;
  ds_type : string;
  ds_application : DataSourceApplication;
  ds_dataType : DataType;
  ds_device : Device
}.

(** [data_source["dataType"]["field"] = fields] *)
Definition set_fields (data_source : DataSource) (fields : list Field) : DataSource :=
  {| ds_dataStreamId := ds_dataStreamId data_source;
     ds_dataStreamName := ds_dataStreamName data_source;
     ds_type := ds_type data_source;
     ds_application := ds_application data_source;
     ds_dataType := {| dt_name := dt_name (ds_dataType data_source);
                       dt_field := fields |};
     ds_device := ds_device data_source |}.

Inductive Value : Type :=
| intVal (v : Z)
| fpVal (v : number).

Record Point : Type := {
  pt_startTimeNanos : Z;
  pt_endTimeNanos : Z;
  pt_dataTypeName : string;
  pt_value : list Value
}.

Record Dataset : Type := {
  dset_dataSourceId : string;
  dset_minStartTimeNs : Z;
  dset_maxEndTimeNs : Z;
  dset_point : list Point
}.

Record Session : Type := {
  ses_id : string;
  ses_name : string;
  ses_description : string;
  ses_startTimeMillis : Z;
  ses_endTimeMillis : Z;
  ses_application_name : string;
  ses_activityType : Z
}.

Record AggregateRequest : Type := {
  agg_aggregateBy : list string;      (* the "dataTypeName" of each entry *)
  agg_bucketByTime_durationMillis : Z;
  agg_startTimeMillis : Z;
  agg_endTimeMillis : Z
}.

(** ** Remote calls and their answers *)

Inductive Call : Type :=
| DataSourcesGet (userId dataSourceId : string)
| DataSourcesCreate (userId : string) (body : DataSource)
| DataSourcesList (userId : string)
| DatasetsPatch (userId dataSourceId datasetId : string) (body : Dataset)
| DatasetsDelete (userId dataSourceId datasetId : string)
| SessionsUpdate (userId sessionId : string) (body : Session)
| SessionsList (userId startTime endTime : string)
| SessionsDelete (userId sessionId : string)
| DatasetAggregate (userId : string) (body : AggregateRequest).

(** [googleapiclient.errors.HttpError]: the status of the response
    ([error.resp.status]) and the text [str(error)]. *)
Record HttpError : Type := {
  status : Z;
  text : string
}.

Record SessionItem : Type := { item_id : string }.
Record DataSourceItem : Type := { item_dataStreamId : string }.

(** A decoded response, as far as the program reads it: the keys
    ["dataStreamId"], ["session"] and ["dataSource"], each possibly absent. *)
Record Response : Type := {
  resp_dataStreamId : option string;
  resp_session : option (list SessionItem);
  resp_dataSource : option (list DataSourceItem)
}.

(** ** The libraries *)

(** [google.oauth2.credentials.Credentials] and
    [google_auth_oauthlib.flow.InstalledAppFlow], by signature. *)
Class GoogleAuth : Type := {
  Credentials : Type;
  (** [Credentials.from_authorized_user_info(json.loads(text))] *)
  from_authorized_user_info : string -> Credentials;
  (** the properties [creds.valid], [creds.expired], [creds.refresh_token] *)
  valid : Credentials -> bool;
  expired : Credentials -> bool;
  refresh_token : Credentials -> option string;
  (** [creds.to_json()] *)
  to_json : Credentials -> string
}.

(** [datetime.datetime], by signature. *)
Class DateTime : Type := {
  datetime : Type;
  (** [int(t.timestamp() * k)] *)
  int_timestamp_times : datetime -> Z -> Z;
  (** [t.replace(hour=0, minute=0, second=0, microsecond=0)] *)
  replace_midnight : datetime -> datetime;
  (** [t + datetime.timedelta(days=n)] *)
  add_days : datetime -> Z -> datetime;
  (** [t.isoformat()] and [str(t)] *)
  isoformat : datetime -> string;
  str_datetime : datetime -> string
}.

Section Program.

Context {auth : GoogleAuth} {dt : DateTime}.

(** ** The world the program runs in *)

(** The service object returned by [build]. *)
Record Service : Type := {
  service_name : string;
  service_version : string;
  service_credentials : Credentials
}.

Definition build (serviceName version : string) (credentials : Credentials) : Service :=
  {| service_name := serviceName;
     service_version := version;
     service_credentials := credentials |}.

(** What an observer of a run sees, in order. *)
Inductive Event : Type :=
| Printed (line : string)
| Called (c : Call) (r : HttpError + Response)
| Refreshed (creds : Credentials)
| RanLocalServer (client_secrets_file : string) (scopes : list string) (port : Z).

Record World : Type := {
  (** [datetime.datetime.now()] *)
  clock : datetime;
  (** the files of the working directory, by path *)
  files : string -> option string;
  (** the answer of the Fitness API to a call, given what happened before *)
  remote : Service -> list Event -> Call -> HttpError + Response;
  (** the state of a credential after [creds.refresh(Request())] *)
  token_endpoint : Credentials -> Credentials;
  (** the credential the interactive flow ends with *)
  consent : string -> list string -> Z -> Credentials;
  (** everything observed so far, oldest first *)
  trace : list Event
}.

Definition record_event (e : Event) (w : World) : World :=
  {| clock := clock w;
     files := files w;
     remote := remote w;
     token_endpoint := token_endpoint w;
     consent := consent w;
     trace := (trace w ++ [e])%list |}.

Definition write_file (path content : string) (w : World) : World :=
  {| clock := clock w;
     files := fun p => if String.eqb p path then Some content else files w p;
     remote := remote w;
     token_endpoint := token_endpoint w;
     consent := consent w;
     trace := trace w |}.

(** ** The monad: state and exceptions *)

Inductive Exception : Type :=
| HttpErrorExc (error : HttpError)
| FileNotFoundError (path : string).

Inductive Outcome (A : Type) : Type :=
| Returned (a : A)
| Raised (exn : Exception).

Arguments Returned {A} a.
Arguments Raised {A} exn.

Definition M (A : Type) : Type := World -> Outcome A * World.

Definition ret {A : Type} (a : A) : M A := fun w => (Returned a, w).

Definition bind {A B : Type} (m : M A) (k : A -> M B) : M B :=
  fun w =>
    match m w with
    | (Returned a, w') => k a w'
    | (Raised exn, w') => (Raised exn, w')
    end.

Notation "x <- m ;; k" := (bind m (fun x => k))
  (at level 61, m at next level, right associativity).
Notation "m ;; k" := (bind m (fun _ => k))
  (at level 61, right associativity).

(** [try: body except HttpError as error: handler error] *)
Definition try_except {A : Type} (body : M A) (handler : HttpError -> M A) : M A :=
  fun w =>
    match body w with
    | (Raised (HttpErrorExc error), w') => handler error w'
    | r => r
    end.

(** [for x in l: body x] *)
Fixpoint for_each {A : Type} (l : list A) (body : A -> M unit) : M unit :=
  match l with
  | [] => ret tt
  | x :: l' => body x ;; for_each l' body
  end.

Definition print (line : string) : M unit :=
  fun w => (Returned tt, record_event (Printed line) w).

(** [request.execute()] on the service [fitness_service] *)
Definition execute (fitness_service : Service) (c : Call) : M Response :=
  fun w =>
    let r := remote w fitness_service (trace w) c in
    let w' := record_event (Called c r) w in
    match r with
    | inl error => (Raised (HttpErrorExc error), w')
    | inr response => (Returned response, w')
    end.

Definition now : M datetime := fun w => (Returned (clock w), w).

Definition path_exists (path : string) : M bool :=
  fun w => (Returned (match files w path with Some _ => true | None => false end), w).

(** [open(path).read()] *)
Definition read (path : string) : M string :=
  fun w =>
    match files w path with
    | Some content => (Returned content, w)
    | None => (Raised (FileNotFoundError path), w)
    end.

(** [with open(path, 'w') as f: f.write(content)] *)
Definition write (path content : string) : M unit :=
  fun w => (Returned tt, write_file path content w).

(** [creds.refresh(Request())]: the object is updated in place; the
    computation returns its new state. *)
Definition refresh (creds : Credentials) : M Credentials :=
  fun w => (Returned (token_endpoint w creds), record_event (Refreshed creds) w).

(** [InstalledAppFlow.from_client_secrets_file(file, scopes).run_local_server(port=port)] *)
Definition run_local_server (client_secrets_file : string) (scopes : list string)
    (port : Z) : M Credentials :=
  fun w => (Returned (consent w client_secrets_file scopes port),
            record_event (RanLocalServer client_secrets_file scopes port) w).

(** ** [get_credentials] *)

Definition get_credentials : M Credentials :=
  token_exists <- path_exists "token.json" ;;
  creds <- (if token_exists
            then token <- read "token.json" ;;
                 ret (Some (from_authorized_user_info token))
            else ret None) ;;
  match creds with
  | Some stored =>
      if negb (valid stored) then
        creds' <- (if expired stored && truthy_str (refresh_token stored)
                   then refresh stored
                   else run_local_server "credentials.json" SCOPES 54321) ;;
        write "token.json" (to_json creds') ;;
        ret creds'
      else ret stored
  | None =>
      creds' <- run_local_server "credentials.json" SCOPES 54321 ;;
      write "token.json" (to_json creds') ;;
      ret creds'
  end.

(** ** [create_data_source] *)

Definition default_application_name : string := "GFit B100".

(** The dict [data_source] built in the not-found branch, with the fields of
    its data type set. *)
Definition new_data_source (data_type_name application_name : string) : DataSource :=
  let data_source_id := get_data_source_id data_type_name in
  let data_source :=
    {| ds_dataStreamId := data_source_id;
       ds_dataStreamName := data_type_name;
       ds_type := "derived";
       ds_application := {| app_name := application_name;
                            app_version := "1.0" |};
       ds_dataType := {| dt_name := data_type_name; dt_field := [] |};
       ds_device := {| dev_uid := "1000001";
                       dev_type := "unknown";
                       dev_version := "1.0";
                       dev_model := "gfit-b100";
                       dev_manufacturer := "microcloud" |} |} in
  if String.eqb data_type_name "com.google.activity.segment" then
    set_fields data_source
      [ {| field_name := "activity"; field_format := "integer" |} ]
  else if String.eqb data_type_name "com.google.calories.expended" then
    set_fields data_source
      [ {| field_name := "calories"; field_format := "floatPoint" |} ]
  else if String.eqb data_type_name "com.google.step_count.delta" then
    set_fields data_source
      [ {| field_name := "steps"; field_format := "integer" |} ]
  else data_source.

Definition create_data_source (fitness_service : Service) (data_type_name : string)
    (application_name : string) : M (option string) :=
  let data_source_id := get_data_source_id data_type_name in
  try_except
    (_ <- execute fitness_service (DataSourcesGet "me" data_source_id) ;;
     print ("Data source " ++ data_source_id ++ " already exists.") ;;
     ret (Some data_source_id))
    (fun error =>
       if Z.eqb (status error) 404 then
         let data_source := new_data_source data_type_name application_name in
         try_except
           (print ("Creating data source: " ++ data_source_id) ;;
            result <- execute fitness_service (DataSourcesCreate "me" data_source) ;;
            print ("Data source created: " ++ str_opt (resp_dataStreamId result)) ;;
            ret (Some data_source_id))
           (fun create_error =>
              print ("Error creating data source: " ++ text create_error) ;;
              ret None)
       else
         print ("Error checking data source: " ++ text error) ;;
         ret None).

(** ** [request_data_aggregation] *)

(** The dict [aggregation_request]. *)
Definition aggregation_request (start_time end_time : datetime) : AggregateRequest :=
  let start_time_ms := int_timestamp_times start_time 1000 in
  let end_time_ms := int_timestamp_times end_time 1000 in
  {| agg_aggregateBy := [ "com.google.step_count.delta" ];
     agg_bucketByTime_durationMillis := 86400000;
     agg_startTimeMillis := start_time_ms;
     agg_endTimeMillis := end_time_ms |}.

Definition request_data_aggregation (fitness_service : Service)
    (start_time end_time : datetime) : M bool :=
  try_except
    (_ <- execute fitness_service
            (DatasetAggregate "me" (aggregation_request start_time end_time)) ;;
     print "Data aggregation requested successfully" ;;
     ret true)
    (fun error =>
       print ("Error requesting data aggregation: " ++ text error) ;;
       ret false).

(** ** [log_session] *)

(** The dict [session]. *)
Definition session_record (activity_type : Z) (start_time end_time : datetime) : Session :=
  let start_time_ms := int_timestamp_times start_time 1000 in
  let end_time_ms := int_timestamp_times end_time 1000 in
  {| ses_id := "session-" ++ str_int start_time_ms;
     ses_name := "GFit B100 Session";
     ses_description := "Activity recorded via GFit B100";
     ses_startTimeMillis := start_time_ms;
     ses_endTimeMillis := end_time_ms;
     ses_application_name := "GFit B100";
     ses_activityType := activity_type |}.

Definition log_session (fitness_service : Service) (activity_type : Z)
    (start_time end_time : datetime) : M bool :=
  let start_time_ms := int_timestamp_times start_time 1000 in
  let session := session_record activity_type start_time end_time in
  try_except
    (_ <- execute fitness_service
            (SessionsUpdate "me" ("session-" ++ str_int start_time_ms) session) ;;
     print "Session created successfully" ;;
     ret true)
    (fun error =>
       print ("Error creating session: " ++ text error) ;;
       ret false).

(** ** [log_activity] *)

(** The value seen by the branch of [if x:] in which [x] is true, for an
    object that is [None] or a string. *)
Definition as_truthy (o : option string) : option string :=
  match o with
  | Some s => if String.eqb s "" then None else Some s
  | None => None
  end.

(** The body of a dataset with the single point [value]. *)
Definition single_point_dataset (data_source_id : string) (start_time_ns end_time_ns : Z)
    (data_type_name : string) (value : Value) : Dataset :=
  {| dset_dataSourceId := data_source_id;
     dset_minStartTimeNs := start_time_ns;
     dset_maxEndTimeNs := end_time_ns;
     dset_point := [ {| pt_startTimeNanos := start_time_ns;
                        pt_endTimeNanos := end_time_ns;
                        pt_dataTypeName := data_type_name;
                        pt_value := [ value ] |} ] |}.

Definition log_activity (activity_type : Z) (start_time end_time : datetime)
    (calories : option number) (steps : option Z) : M bool :=
  credentials <- get_credentials ;;
  let fitness_service := build "fitness" "v1" credentials in
  activity_source_id <-
    create_data_source fitness_service "com.google.activity.segment"
      default_application_name ;;
  calories_source_id <-
    (if truthy_calories calories
     then create_data_source fitness_service "com.google.calories.expended"
            default_application_name
     else ret None) ;;
  steps_source_id <-
    (if truthy_steps steps
     then create_data_source fitness_service "com.google.step_count.delta"
            default_application_name
     else ret None) ;;
  match as_truthy activity_source_id with
  | None =>
      print "Failed to create activity data source" ;;
      ret false
  | Some activity_source_id =>
      let start_time_ns := int_timestamp_times start_time 1000000000 in
      let end_time_ns := int_timestamp_times end_time 1000000000 in
      let dataset_id := str_int start_time_ns ++ "-" ++ str_int end_time_ns in
      try_except
        (let activity_segment :=
           single_point_dataset activity_source_id start_time_ns end_time_ns
             "com.google.activity.segment" (intVal activity_type) in
         _ <- execute fitness_service
                (DatasetsPatch "me" activity_source_id dataset_id activity_segment) ;;
         match calories, as_truthy calories_source_id with
         | Some calories_value, Some calories_source_id =>
             if truthy_number calories_value then
               let calories_data :=
                 single_point_dataset calories_source_id start_time_ns end_time_ns
                   "com.google.calories.expended" (fpVal calories_value) in
               _ <- execute fitness_service
                      (DatasetsPatch "me" calories_source_id dataset_id calories_data) ;;
               ret tt
             else ret tt
         | _, _ => ret tt
         end ;;
         match steps, as_truthy steps_source_id with
         | Some steps_value, Some steps_source_id =>
             if negb (Z.eqb steps_value 0) then
               let steps_data :=
                 single_point_dataset steps_source_id start_time_ns end_time_ns
                   "com.google.step_count.delta" (intVal steps_value) in
               _ <- execute fitness_service
                      (DatasetsPatch "me" steps_source_id dataset_id steps_data) ;;
               ret tt
             else ret tt
         | _, _ => ret tt
         end ;;
         _ <- log_session fitness_service activity_type start_time end_time ;;
         (if truthy_steps steps
          then _ <- request_data_aggregation fitness_service start_time end_time ;;
               ret tt
          else ret tt) ;;
         print "Data points inserted successfully" ;;
         ret true)
        (fun error =>
           print ("An error occurred: " ++ text error) ;;
           ret false)
  end.

(** ** [clean_up_todays_activities] *)

(** The marker of the data sources this program creates. *)
Definition created_by_our_script (data_source_id : string) : bool :=
  str_in PROJECT_NUMBER data_source_id && str_in "microcloud" data_source_id.

Definition clean_up_todays_activities : M bool :=
  credentials <- get_credentials ;;
  let fitness_service := build "fitness" "v1" credentials in
  current <- now ;;
  let today := replace_midnight current in
  let tomorrow := add_days today 1 in
  let start_time_ns := int_timestamp_times today 1000000000 in
  let end_time_ns := int_timestamp_times tomorrow 1000000000 in
  let start_time_rfc3339 := isoformat today ++ "Z" in
  let end_time_rfc3339 := isoformat tomorrow ++ "Z" in
  print ("Cleaning up activities from " ++ str_datetime today ++ " to "
           ++ str_datetime tomorrow) ;;
  try_except
    (sessions <- execute fitness_service
                   (SessionsList "me" start_time_rfc3339 end_time_rfc3339) ;;
     match resp_session sessions with
     | Some listed =>
         for_each listed (fun session =>
           let session_id := item_id session in
           try_except
             (_ <- execute fitness_service (SessionsDelete "me" session_id) ;;
              print ("Deleted session " ++ session_id))
             (fun error =>
                print ("Error deleting session " ++ session_id ++ ": " ++ text error)))
     | None => print "No sessions found for today"
     end)
    (fun error => print ("Error listing sessions: " ++ text error)) ;;
  try_except
    (data_sources_result <- execute fitness_service (DataSourcesList "me") ;;
     match resp_dataSource data_sources_result with
     | Some listed =>
         for_each listed (fun data_source =>
           let data_source_id := item_dataStreamId data_source in
           if created_by_our_script data_source_id then
             let dataset_id := str_int start_time_ns ++ "-" ++ str_int end_time_ns in
             try_except
               (_ <- execute fitness_service
                       (DatasetsDelete "me" data_source_id dataset_id) ;;
                print ("Deleted dataset for " ++ data_source_id))
               (fun error =>
                  if negb (Z.eqb (status error) 404) then
                    print ("Error deleting dataset for " ++ data_source_id ++ ": "
                             ++ text error)
                  else ret tt)
           else ret tt)
     | None => print "No data sources found"
     end)
    (fun error => print ("Error listing data sources: " ++ text error)) ;;
  print "Cleanup completed" ;;
  ret true.

(** ** Observations on a run *)

(** The credential stored in [token.json], if the file exists. *)
Definition stored_credentials (w : World) : option Credentials :=
  option_map from_authorized_user_info (files w "token.json").

Definition run_outcome {A : Type} (m : M A) (w : World) : Outcome A := fst (m w).

(** The events a computation adds to the trace. *)
Definition run_events {A : Type} (m : M A) (w : World) : list Event :=
  skipn (length (trace w)) (trace (snd (m w))).


(** A world in which no credential is stored and every remote call
    succeeds. *)
Definition success_world (t : datetime) : World :=
  {| clock := t;
     files := fun _ => None;
     remote := fun _ _ _ =>
       inr {| resp_dataStreamId := None; resp_session := None;
              resp_dataSource := None |};
     token_endpoint := fun creds => creds;
     consent := fun _ _ _ => from_authorized_user_info "";
     trace := [] |}.

(** The remote calls of a trace, in order. *)
Fixpoint calls (evs : list Event) : list Call :=
  match evs with
  | [] => []
  | Called c _ :: rest => c :: calls rest
  | _ :: rest => calls rest
  end.

(** The sessions and data sources that listings returned. *)
Fixpoint listed_sessions (evs : list Event) : list SessionItem :=
  match evs with
  | [] => []
  | Called (SessionsList _ _ _) (inr response) :: rest =>
      match resp_session response with
      | Some listed => listed ++ listed_sessions rest
      | None => listed_sessions rest
      end
  | _ :: rest => listed_sessions rest
  end%list.

Fixpoint listed_data_sources (evs : list Event) : list DataSourceItem :=
  match evs with
  | [] => []
  | Called (DataSourcesList _) (inr response) :: rest =>
      match resp_dataSource response with
      | Some listed => listed ++ listed_data_sources rest
      | None => listed_data_sources rest
      end
  | _ :: rest => listed_data_sources rest
  end%list.

(** The session ids, respectively the data source ids, of the deletion
    calls of a trace. *)
Fixpoint session_deletes (evs : list Event) : list string :=
  match evs with
  | [] => []
  | Called (SessionsDelete _ session_id) _ :: rest => session_id :: session_deletes rest
  | _ :: rest => session_deletes rest
  end.

Fixpoint dataset_deletes (evs : list Event) : list string :=
  match evs with
  | [] => []
  | Called (DatasetsDelete _ data_source_id _) _ :: rest =>
      data_source_id :: dataset_deletes rest
  | _ :: rest => dataset_deletes rest
  end.

Definition is_deletion (c : Call) : bool :=
  match c with
  | DatasetsDelete _ _ _ | SessionsDelete _ _ => true
  | _ => false
  end.

(** [line] ends with [suffix]. *)
Definition ends_with (line suffix : string) : Prop :=
  exists p, line = p ++ suffix.

(** The two failures the program handles without printing the error: a
    not-found answer to the existence check of a data source and a not-found
    answer to the deletion of a dataset. *)
Definition handled_silently (c : Call) (error : HttpError) : bool :=
  match c with
  | DataSourcesGet _ _ | DatasetsDelete _ _ _ => Z.eqb (status error) 404
  | _ => false
  end.

(** Every failed call that is not handled silently is followed at once by a
    printed line that ends with the text of the error. *)
Fixpoint failures_printed (evs : list Event) : Prop :=
  match evs with
  | [] => True
  | Called c (inl error) :: rest =>
      (handled_silently c error = true \/
       exists line rest', rest = Printed line :: rest' /\ ends_with line (text error))
      /\ failures_printed rest
  | _ :: rest => failures_printed rest
  end.

(** What follows a failed deletion during cleanup: the error line, except
    after a not-found dataset, where the next printed line, if the next event
    is one, is the closing message. *)
Fixpoint deletions_reported (evs : list Event) : Prop :=
  match evs with
  | [] => True
  | Called c (inl error) :: rest =>
      match c with
      | SessionsDelete _ session_id =>
          hd_error rest
          = Some (Printed ("Error deleting session " ++ session_id ++ ": " ++ text error))
      | DatasetsDelete _ data_source_id _ =>
          if Z.eqb (status error) 404 then
            match hd_error rest with
            | Some (Printed line) => line = "Cleanup completed"
            | _ => True
            end
          else
            hd_error rest
            = Some (Printed ("Error deleting dataset for " ++ data_source_id ++ ": "
                               ++ text error))
      | _ => True
      end /\ deletions_reported rest
  | _ :: rest => deletions_reported rest
  end.

(** The failures after which [log_activity] gives up: a failed dataset patch
    and a failed provisioning of the activity data source. *)
Definition aborts (c : Call) (error : HttpError) : bool :=
  match c with
  | DatasetsPatch _ _ _ _ => true
  | DataSourcesGet _ data_source_id =>
      String.eqb data_source_id (get_data_source_id "com.google.activity.segment")
      && negb (Z.eqb (status error) 404)
  | DataSourcesCreate _ body =>
      String.eqb (ds_dataStreamId body) (get_data_source_id "com.google.activity.segment")
  | _ => false
  end.

(** The data source a call addresses, if it addresses one. *)
Definition data_source_of (c : Call) : option string :=
  match c with
  | DataSourcesGet _ data_source_id => Some data_source_id
  | DataSourcesCreate _ body => Some (ds_dataStreamId body)
  | DatasetsPatch _ data_source_id _ _ => Some data_source_id
  | DatasetsDelete _ data_source_id _ => Some data_source_id
  | _ => None
  end.

(** The two calls [create_data_source] can issue. *)
Definition provision_calls (data_type_name application_name : string) : list Call :=
  [ DataSourcesGet "me" (get_data_source_id data_type_name);
    DataSourcesCreate "me" (new_data_source data_type_name application_name) ].

(** The patch of the single value [value] of type [data_type_name]. *)
Definition patch_call (start_time end_time : datetime) (data_type_name : string)
    (value : Value) : Call :=
  let start_time_ns := int_timestamp_times start_time 1000000000 in
  let end_time_ns := int_timestamp_times end_time 1000000000 in
  DatasetsPatch "me" (get_data_source_id data_type_name)
    (str_int start_time_ns ++ "-" ++ str_int end_time_ns)
    (single_point_dataset (get_data_source_id data_type_name) start_time_ns end_time_ns
       data_type_name value).

Definition session_call (activity_type : Z) (start_time end_time : datetime) : Call :=
  SessionsUpdate "me" ("session-" ++ str_int (int_timestamp_times start_time 1000))
    (session_record activity_type start_time end_time).

Definition aggregate_call (start_time end_time : datetime) : Call :=
  DatasetAggregate "me" (aggregation_request start_time end_time).

(** The calls of [log_activity] in program order, first those that
    provision the data sources, then those that write; a run issues a
    subsequence of them. *)
Definition planned_provisioning (calories : option number) (steps : option Z)
    : list Call :=
  (provision_calls "com.google.activity.segment" default_application_name
   ++ (if truthy_calories calories
       then provision_calls "com.google.calories.expended" default_application_name
       else [])
   ++ (if truthy_steps steps
       then provision_calls "com.google.step_count.delta" default_application_name
       else []))%list.

Definition planned_writes (activity_type : Z) (start_time end_time : datetime)
    (calories : option number) (steps : option Z) : list Call :=
  ([ patch_call start_time end_time "com.google.activity.segment"
       (intVal activity_type) ]
   ++ match calories with
      | Some calories_value =>
          if truthy_number calories_value
          then [ patch_call start_time end_time "com.google.calories.expended"
                   (fpVal calories_value) ]
          else []
      | None => []
      end
   ++ match steps with
      | Some steps_value =>
          if negb (Z.eqb steps_value 0)
          then [ patch_call start_time end_time "com.google.step_count.delta"
                   (intVal steps_value) ]
          else []
      | None => []
      end
   ++ [ session_call activity_type start_time end_time ]
   ++ (if truthy_steps steps then [ aggregate_call start_time end_time ] else []))%list.

Definition planned_calls (activity_type : Z) (start_time end_time : datetime)
    (calories : option number) (steps : option Z) : list Call :=
  (planned_provisioning calories steps
   ++ planned_writes activity_type start_time end_time calories steps)%list.

(** The bodies of the aggregation requests of a trace. *)
Fixpoint aggregations (evs : list Event) : list AggregateRequest :=
  match evs with
  | [] => []
  | Called (DatasetAggregate _ body) _ :: rest => body :: aggregations rest
  | _ :: rest => aggregations rest
  end.

(** No failure of the trace is one after which [log_activity] gives up. *)
Fixpoint no_abort (evs : list Event) : Prop :=
  match evs with
  | [] => True
  | Called c (inl error) :: rest => aborts c error = false /\ no_abort rest
  | _ :: rest => no_abort rest
  end.

(** Only authorization steps: no call, no printed line. *)
Fixpoint auth_only (evs : list Event) : Prop :=
  match evs with
  | [] => True
  | Refreshed _ :: rest | RanLocalServer _ _ _ :: rest => auth_only rest
  | _ :: _ => False
  end.

(** The listed data sources that carry the marker. *)
Definition ours (data_source : DataSourceItem) : bool :=
  created_by_our_script (item_dataStreamId data_source).

(** The next printed line, if the next event is one, is the closing message. *)
Definition quiet_head (evs : list Event) : Prop :=
  match hd_error evs with
  | Some (Printed line) => line = "Cleanup completed"
  | _ => True
  end.

(** An operation made of the single call [c]: it returns a boolean, which is
    [False] exactly when the call failed; the failure is printed; and the
    call is issued once. *)
Definition single_call_post (c : Call) (o : Outcome bool) (evs : list Event) : Prop :=
  exists b,
    o = Returned b
    /\ failures_printed evs
    /\ calls evs = [c]
    /\ (b = false <-> exists error, In (Called c (inl error)) evs).

(** ** Shapes of runs *)

(** [wp m Q]: from every world, [m] extends the trace by some events [evs]
    and ends with an outcome [o] such that [Q o evs]. *)
Definition wp {A : Type} (m : M A) (Q : Outcome A -> list Event -> Prop) : Prop :=
  forall w, exists evs,
    trace (snd (m w)) = (trace w ++ evs)%list /\ Q (fst (m w)) evs.

(** What [log_activity] guarantees about its outcome [o] and its events
    [evs]: it returns a boolean [b]; its calls are planned calls, in program
    order; failures are printed; a run that returns [True] saw no failure
    after which the function gives up; the aggregation request is issued
    exactly when [steps] is true and the run returns [True]; and a run that
    returns [True] has patched the activity segment and updated the
    session. *)
Definition log_activity_post (activity_type : Z) (start_time end_time : datetime)
    (calories : option number) (steps : option Z)
    (o : Outcome bool) (evs : list Event) : Prop :=
  exists b,
    o = Returned b
    /\ subsequence (calls evs)
         (planned_calls activity_type start_time end_time calories steps)
    /\ failures_printed evs
    /\ (b = true -> no_abort evs)
    /\ aggregations evs
       = (if truthy_steps steps && b
          then [ aggregation_request start_time end_time ] else [])
    /\ (b = true ->
        In (patch_call start_time end_time "com.google.activity.segment"
              (intVal activity_type)) (calls evs)
        /\ In (session_call activity_type start_time end_time) (calls evs)).

(** The four runs of [create_data_source], with the value returned. *)
Inductive provisioned (data_type_name application_name : string)
    : option string -> list Event -> Prop :=
| provisioned_exists response :
    provisioned data_type_name application_name
      (Some (get_data_source_id data_type_name))
      [ Called (DataSourcesGet "me" (get_data_source_id data_type_name)) (inr response);
        Printed ("Data source " ++ get_data_source_id data_type_name
                   ++ " already exists.") ]
| provisioned_created error response :
    status error = 404 ->
    provisioned data_type_name application_name
      (Some (get_data_source_id data_type_name))
      [ Called (DataSourcesGet "me" (get_data_source_id data_type_name)) (inl error);
        Printed ("Creating data source: " ++ get_data_source_id data_type_name);
        Called (DataSourcesCreate "me" (new_data_source data_type_name application_name))
          (inr response);
        Printed ("Data source created: " ++ str_opt (resp_dataStreamId response)) ]
| provisioned_create_failed error create_error :
    status error = 404 ->
    provisioned data_type_name application_name None
      [ Called (DataSourcesGet "me" (get_data_source_id data_type_name)) (inl error);
        Printed ("Creating data source: " ++ get_data_source_id data_type_name);
        Called (DataSourcesCreate "me" (new_data_source data_type_name application_name))
          (inl create_error);
        Printed ("Error creating data source: " ++ text create_error) ]
| provisioned_check_failed error :
    status error <> 404 ->
    provisioned data_type_name application_name None
      [ Called (DataSourcesGet "me" (get_data_source_id data_type_name)) (inl error);
        Printed ("Error checking data source: " ++ text error) ].

(** An optional provisioning: [create_data_source] when [flag] is true,
    nothing otherwise. *)
Definition optionally_provisioned (flag : bool) (data_type_name : string)
    (r : option string) (evs : list Event) : Prop :=
  if flag then provisioned data_type_name default_application_name r evs
  else r = None /\ evs = [].

(** The events of the loop over the listed sessions. *)
Inductive session_deletions : list SessionItem -> list Event -> Prop :=
| session_deletions_nil : session_deletions [] []
| session_deletions_ok session listed response evs :
    session_deletions listed evs ->
    session_deletions (session :: listed)
      (Called (SessionsDelete "me" (item_id session)) (inr response)
       :: Printed ("Deleted session " ++ item_id session) :: evs)
| session_deletions_error session listed error evs :
    session_deletions listed evs ->
    session_deletions (session :: listed)
      (Called (SessionsDelete "me" (item_id session)) (inl error)
       :: Printed ("Error deleting session " ++ item_id session ++ ": " ++ text error)
       :: evs).

(** The events of the loop over the listed data sources, for the dataset
    [dataset_id]. *)
Inductive dataset_deletions (dataset_id : string)
    : list DataSourceItem -> list Event -> Prop :=
| dataset_deletions_nil : dataset_deletions dataset_id [] []
| dataset_deletions_skip data_source listed evs :
    created_by_our_script (item_dataStreamId data_source) = false ->
    dataset_deletions dataset_id listed evs ->
    dataset_deletions dataset_id (data_source :: listed) evs
| dataset_deletions_ok data_source listed response evs :
    created_by_our_script (item_dataStreamId data_source) = true ->
    dataset_deletions dataset_id listed evs ->
    dataset_deletions dataset_id (data_source :: listed)
      (Called (DatasetsDelete "me" (item_dataStreamId data_source) dataset_id)
         (inr response)
       :: Printed ("Deleted dataset for " ++ item_dataStreamId data_source) :: evs)
| dataset_deletions_not_found data_source listed error evs :
    created_by_our_script (item_dataStreamId data_source) = true ->
    status error = 404 ->
    dataset_deletions dataset_id listed evs ->
    dataset_deletions dataset_id (data_source :: listed)
      (Called (DatasetsDelete "me" (item_dataStreamId data_source) dataset_id)
         (inl error) :: evs)
| dataset_deletions_error data_source listed error evs :
    created_by_our_script (item_dataStreamId data_source) = true ->
    status error <> 404 ->
    dataset_deletions dataset_id listed evs ->
    dataset_deletions dataset_id (data_source :: listed)
      (Called (DatasetsDelete "me" (item_dataStreamId data_source) dataset_id)
         (inl error)
       :: Printed ("Error deleting dataset for " ++ item_dataStreamId data_source
                     ++ ": " ++ text error) :: evs).

(** The events of the first and of the second [try] of
    [clean_up_todays_activities]. *)
Inductive session_phase : list Event -> Prop :=
| session_phase_error startTime endTime error :
    session_phase
      [ Called (SessionsList "me" startTime endTime) (inl error);
        Printed ("Error listing sessions: " ++ text error) ]
| session_phase_none startTime endTime response :
    resp_session response = None ->
    session_phase
      [ Called (SessionsList "me" startTime endTime) (inr response);
        Printed "No sessions found for today" ]
| session_phase_listed startTime endTime response listed evs :
    resp_session response = Some listed ->
    session_deletions listed evs ->
    session_phase (Called (SessionsList "me" startTime endTime) (inr response) :: evs).

Inductive dataset_phase : list Event -> Prop :=
| dataset_phase_error error :
    dataset_phase
      [ Called (DataSourcesList "me") (inl error);
        Printed ("Error listing data sources: " ++ text error) ]
| dataset_phase_none response :
    resp_dataSource response = None ->
    dataset_phase
      [ Called (DataSourcesList "me") (inr response);
        Printed "No data sources found" ]
| dataset_phase_listed response listed dataset_id evs :
    resp_dataSource response = Some listed ->
    dataset_deletions dataset_id listed evs ->
    dataset_phase (Called (DataSourcesList "me") (inr response) :: evs).

(** The events of [clean_up_todays_activities]. *)
Definition cleanup_shape (evs : list Event) : Prop :=
  exists authorization header sessions datasets,
    evs = (authorization ++ Printed header :: sessions ++ datasets
             ++ [ Printed "Cleanup completed" ])%list
    /\ auth_only authorization
    /\ session_phase sessions
    /\ dataset_phase datasets.

End Program.

Arguments Returned {A} a.
Arguments Raised {A} exn.

(** ** Further observations on a run *)

Section FurtherObservations.

Context {auth : GoogleAuth} {dt : DateTime}.

(** [w'] differs from [w] at most in its trace. *)
Definition same_outside (w w' : World) : Prop :=
  clock w' = clock w /\ files w' = files w /\ remote w' = remote w
  /\ token_endpoint w' = token_endpoint w /\ consent w' = consent w.

(** [m] changes nothing but the trace. *)
Definition local_state_kept {A : Type} (m : M A) : Prop :=
  forall w, same_outside w (snd (m w)).

(** The calls of a cleanup at the time [current], given what the two
    listings return. *)
Definition cleanup_calls (current : datetime) (sessions : list SessionItem)
    (data_sources : list DataSourceItem) : list Call :=
  let today := replace_midnight current in
  let tomorrow := add_days today 1 in
  let dataset_id := str_int (int_timestamp_times today 1000000000) ++ "-"
                      ++ str_int (int_timestamp_times tomorrow 1000000000) in
  (SessionsList "me" (isoformat today ++ "Z") (isoformat tomorrow ++ "Z")
   :: map (fun session => SessionsDelete "me" (item_id session)) sessions
   ++ DataSourcesList "me"
   :: map (fun data_source =>
             DatasetsDelete "me" (item_dataStreamId data_source) dataset_id)
        (filter ours data_sources))%list.

Definition is_listing (c : Call) : bool :=
  match c with
  | SessionsList _ _ _ | DataSourcesList _ => true
  | _ => false
  end.

(** The bodies of the session updates of a trace. *)
Fixpoint session_updates (evs : list Event) : list Session :=
  match evs with
  | [] => []
  | Called (SessionsUpdate _ _ body) _ :: rest => body :: session_updates rest
  | _ :: rest => session_updates rest
  end.

(** The data sources a trace confirms: those whose existence check or whose
    creation succeeded. *)
Fixpoint confirmed (evs : list Event) : list string :=
  match evs with
  | [] => []
  | Called (DataSourcesGet _ data_source_id) (inr _) :: rest =>
      data_source_id :: confirmed rest
  | Called (DataSourcesCreate _ body) (inr _) :: rest =>
      ds_dataStreamId body :: confirmed rest
  | _ :: rest => confirmed rest
  end.

(** Every dataset patch of the trace addresses a data source that is in
    [known] or that the trace confirmed before the patch. *)
Fixpoint patches_confirmed (known : list string) (evs : list Event) : Prop :=
  match evs with
  | [] => True
  | Called (DatasetsPatch _ data_source_id _ _) _ :: rest =>
      In data_source_id known /\ patches_confirmed known rest
  | Called (DataSourcesGet _ data_source_id) (inr _) :: rest =>
      patches_confirmed (data_source_id :: known) rest
  | Called (DataSourcesCreate _ body) (inr _) :: rest =>
      patches_confirmed (ds_dataStreamId body :: known) rest
  | _ :: rest => patches_confirmed known rest
  end.

(** The identifier [create_data_source] returned, if it returned one. *)
Definition known_of (r : option string) : list string :=
  match r with
  | Some data_source_id => [ data_source_id ]
  | None => []
  end.

(** What decides the value [log_activity] returns: it returns a boolean
    [b]; the session is updated, once, exactly when [b] is [True]; a run that
    returns [False] saw a failure after which the function gives up; and
    every patch addresses a data source confirmed before it. *)
Definition log_activity_verdict_post (activity_type : Z) (start_time end_time : datetime)
    (o : Outcome bool) (evs : list Event) : Prop :=
  exists b,
    o = Returned b
    /\ session_updates evs
       = (if b then [ session_record activity_type start_time end_time ] else [])
    /\ (b = false ->
        exists c error, In (Called c (inl error)) evs /\ aborts c error = true)
    /\ patches_confirmed [] evs.

End FurtherObservations.

(** ** The command line *)

(** Subtraction of a [datetime.timedelta], by signature: the result, or
    [None] where Python raises ([OverflowError], and [ValueError] for a
    number of hours that is not a number). *)
Class TimeDelta {dt : DateTime} : Type := {
  (** [t - datetime.timedelta(hours=h)] *)
  minus_hours : datetime -> number -> option datetime;
  (** [t - datetime.timedelta(minutes=m)] *)
  minus_minutes : datetime -> Z -> option datetime
}.

Section Script.

Context {auth : GoogleAuth} {dt : DateTime} {td : TimeDelta}.

(** The options of the [log] command: [--type] and [--duration] are
    integers; [--calories] is a float and [--steps] an integer, [None] when
    not given; [--hours-ago] is a float when given and the integer [1]
    otherwise. *)
Record LogArguments : Type := {
  args_type : Z;
  args_duration : Z;
  args_calories : option float;
  args_steps : option Z;
  args_hours_ago : number
}.

(** What [parser.parse_args()] returns, by the value of [args.command]. *)
Inductive Namespace : Type :=
| command_none
| command_cleanup
| command_log (args : LogArguments).

(** How the script ends: at its last statement, with an exception of the
    operations, or with the exception of the date arithmetic. *)
Inductive Exit : Type :=
| Completed
| Uncaught (exn : Exception)
| TimeDeltaError.

Definition exit_of {A : Type} (r : Outcome A * World) : Exit * World :=
  match r with
  | (Returned _, w) => (Completed, w)
  | (Raised exn, w) => (Uncaught exn, w)
  end.

(** The block under [if __name__ == "__main__":], after the arguments are
    parsed; [current] is the value of [datetime.datetime.now()]. *)
Definition main (args : Namespace) : World -> Exit * World :=
  fun w =>
    match args with
    | command_cleanup => exit_of (clean_up_todays_activities w)
    | command_log args =>
        let current := clock w in
        match minus_hours current (args_hours_ago args) with
        | None => (TimeDeltaError, w)
        | Some end_time =>
            match minus_minutes end_time (args_duration args) with
            | None => (TimeDeltaError, w)
            | Some start_time =>
                exit_of
                  (bind (log_activity (args_type args) start_time end_time
                           (option_map PyFloat (args_calories args)) (args_steps args))
                     (fun success =>
                        if success then print "Activity logged successfully!"
                        else print "Failed to log activity.") w)
            end
        end
    | command_none =>
        let current := clock w in
        match minus_hours current (PyInt 1) with
        | None => (TimeDeltaError, w)
        | Some end_time =>
            match minus_minutes end_time 30 with
            | None => (TimeDeltaError, w)
            | Some start_time =>
                exit_of
                  (bind (log_activity 8 start_time end_time (Some (PyInt 250)) (Some 3500))
                     (fun success =>
                        if success then print "Activity logged successfully!"
                        else print "Failed to log activity.") w)
            end
        end
    end.

(** The events the script adds to the trace. *)
Definition script_events (args : Namespace) (w : World) : list Event :=
  skipn (length (trace w)) (trace (snd (main args w))).

End Script.


(** ** Stand-ins for the libraries and the outside, for concrete runs *)

(** A credential given by its access token, whether it has expired, and its
    refresh token; it is valid when it has a token and has not expired. *)
Record StubCredentials : Type := {
  stub_token : option string;
  stub_expired : bool;
  stub_refresh_token : option string
}.

Definition stub_valid (creds : StubCredentials) : bool :=
  match stub_token creds with
  | Some _ => negb (stub_expired creds)
  | None => false
  end.

Definition stub_of_text (token : string) : StubCredentials :=
  {| stub_token := if String.eqb token "" then None else Some token;
     stub_expired := is_prefix "expired" token;
     stub_refresh_token := if str_in "refreshable" token then Some "1//refresh" else None |}.

#[global] Instance StubAuth : GoogleAuth :=
  {| Credentials := StubCredentials;
     from_authorized_user_info := stub_of_text;
     valid := stub_valid;
     expired := stub_expired;
     refresh_token := stub_refresh_token;
     to_json := fun creds => str_opt (stub_token creds) |}.

(** A clock that counts seconds. *)
#[global] Instance StubDateTime : DateTime :=
  {| datetime := Z;
     int_timestamp_times := fun t k => t * k;
     replace_midnight := fun t => t - t mod 86400;
     add_days := fun t n => t + 86400 * n;
     isoformat := str_int;
     str_datetime := str_int |}.

Definition ok_response : Response :=
  {| resp_dataStreamId := None; resp_session := None; resp_dataSource := None |}.

Definition http_error (code : Z) : HttpError :=
  {| status := code; text := "HttpError " ++ str_int code |}.

(** A world with an empty trace, at second 1700000000, with the given
    content of [token.json] and the given behaviour of the Fitness API. *)
Definition stub_world (token_json : option string)
    (api : Service -> list Event -> Call -> HttpError + Response) : World :=
  {| clock := 1700000000;
     files := fun path => if String.eqb path "token.json" then token_json else None;
     remote := api;
     token_endpoint := fun _ => stub_of_text "valid";
     consent := fun _ _ _ => stub_of_text "valid";
     trace := [] |}.

(** An API on which every call succeeds, and one on which the calls selected
    by [fails] are answered with the status [code]. *)
Definition api_ok : Service -> list Event -> Call -> HttpError + Response :=
  fun _ _ _ => inr ok_response.

Definition api_failing (fails : Call -> bool) (code : Z)
    : Service -> list Event -> Call -> HttpError + Response :=
  fun _ _ c => if fails c then inl (http_error code) else inr ok_response.

Definition stub_service : Service := build "fitness" "v1" (stub_of_text "valid").

Definition is_existence_check (c : Call) : bool :=
  match c with
  | DataSourcesGet _ _ => true
  | _ => false
  end.

(** A listing of two sessions and of three data sources, the second of which
    is not of this program; the deletion of session [s1] and the deletion of
    the dataset of the first data source fail with the given statuses. *)
Definition stub_sessions : list SessionItem :=
  [ {| item_id := "s1" |}; {| item_id := "s2" |} ].

Definition stub_data_sources : list DataSourceItem :=
  [ {| item_dataStreamId := get_data_source_id "com.google.step_count.delta" |};
    {| item_dataStreamId :=
         "derived:com.google.step_count.delta:com.google.android.gms:estimated_steps" |};
    {| item_dataStreamId := get_data_source_id "com.google.calories.expended" |} ].

Definition api_listing (session_status dataset_status : Z)
    : Service -> list Event -> Call -> HttpError + Response :=
  fun _ _ c =>
    match c with
    | SessionsList _ _ _ =>
        inr {| resp_dataStreamId := None;
               resp_session := Some stub_sessions;
               resp_dataSource := None |}
    | DataSourcesList _ =>
        inr {| resp_dataStreamId := None;
               resp_session := None;
               resp_dataSource := Some stub_data_sources |}
    | SessionsDelete _ session_id =>
        if String.eqb session_id "s1" then inl (http_error session_status)
        else inr ok_response
    | DatasetsDelete _ data_source_id _ =>
        if String.eqb data_source_id (get_data_source_id "com.google.step_count.delta")
        then inl (http_error dataset_status)
        else inr ok_response
    | _ => inr ok_response
    end.

(** The existence check of the data source of [data_type_name]. *)
Definition is_existence_check_of (data_type_name : string) (c : Call) : bool :=
  match c with
  | DataSourcesGet _ data_source_id =>
      String.eqb data_source_id (get_data_source_id data_type_name)
  | _ => false
  end.

Definition is_patch (c : Call) : bool :=
  match c with
  | DatasetsPatch _ _ _ _ => true
  | _ => false
  end.

(** An activity of half an hour that ended an hour before second
    1700000000. *)
Definition stub_start_time : @datetime StubDateTime := 1700000000 - 5400.
Definition stub_end_time : @datetime StubDateTime := 1700000000 - 3600.

(** Date arithmetic on the clock that counts seconds.  A number of hours
    given as a float is taken to the whole second below; it raises when it
    is not finite or exceeds the range of a [timedelta]. *)
Fixpoint float_of_positive (p : positive) : float :=
  match p with
  | xH => 1
  | xO q => 2 * float_of_positive q
  | xI q => 2 * float_of_positive q + 1
  end%float.

(** [acc] plus the greatest natural number below [2 ^ bits] that keeps the
    sum at most [x]. *)
Fixpoint floor_from (bits : nat) (acc : Z) (x : float) : Z :=
  match bits with
  | O => acc
  | S k =>
      let candidate := acc + 2 ^ Z.of_nat k in
      if (float_of_positive (Z.to_pos candidate) <=? x)%float
      then floor_from k candidate x
      else floor_from k acc x
  end.

Definition seconds_of_hours (h : float) : Z :=
  let x := (abs h * 3600)%float in
  let n := floor_from 46 0 x in
  if (0 <=? h)%float then n
  else if Z.eqb n 0 then (if (x =? 0)%float then 0 else -1)
  else if (float_of_positive (Z.to_pos n) =? x)%float then - n else - n - 1.

#[global] Instance StubTimeDelta : @TimeDelta StubDateTime :=
  {| minus_hours := fun t h =>
       match h with
       | PyInt n => Some (t - 3600 * n)
       | PyFloat f =>
           if is_finite f && (abs f * 3600 <? float_of_positive (2 ^ 46))%float
           then Some (t - seconds_of_hours f)
           else None
       end;
     minus_minutes := fun t m => Some (t - 60 * m) |}.

(** * Properties *)

(** ** Strings *)

Lemma append_assoc (a b c : string) : (a ++ b) ++ c = a ++ b ++ c.
Proof. induction a as [|x a IH]; simpl; [reflexivity | now rewrite IH]. Qed.

Lemma is_prefix_spec (p s : string) :
  is_prefix p s = true <-> exists r, s = p ++ r.
Proof.
  revert s; induction p as [|a p IH]; intros s; simpl.
  - split; [intros _; now exists s | reflexivity].
  - destruct s as [|b s].
    + split; [discriminate | intros [r H]; discriminate].
    + rewrite andb_true_iff, Ascii.eqb_eq, IH. split.
      * intros [-> [r ->]]. now exists r.
      * intros [r H]. injection H as -> ->. split; [reflexivity | now exists r].
Qed.

Lemma str_in_spec (sub s : string) :
  str_in sub s = true <-> is_substring sub s.
Proof.
  unfold is_substring. induction s as [|b s IH]; simpl.
  - rewrite orb_false_r, is_prefix_spec. split.
    + intros [r H]. now exists "", r.
    + intros [l [r H]]. destruct l; [now exists r | discriminate].
  - rewrite orb_true_iff, IH. split.
    + intros [H | [l [r H]]].
      * apply is_prefix_spec in H as [r H]. now exists "", r.
      * exists (String b l), r. simpl. now rewrite H.
    + intros [l [r H]]. destruct l as [|x l].
      * left. apply (proj2 (is_prefix_spec sub (String b s))). now exists r.
      * right. simpl in H. injection H as _ ->. now exists l, r.
Qed.

Lemma ends_with_refl (t : string) : ends_with t t.
Proof. now exists "". Qed.

Lemma ends_with_prepend (p line t : string) : ends_with line t -> ends_with (p ++ line) t.
Proof. intros [q ->]. exists (p ++ q). now rewrite append_assoc. Qed.

Lemma length_append (a b : string) :
  String.length (a ++ b) = (String.length a + String.length b)%nat.
Proof. induction a as [| x a IH]; cbn; [reflexivity | now rewrite IH]. Qed.

Lemma append_eq_length (a b x y : string) :
  a ++ x = b ++ y -> String.length a = String.length b -> a = b.
Proof.
  revert b. induction a as [| c a IH]; intros [| d b]; cbn; try discriminate; auto.
  intros [= -> H] [= Hlen]. f_equal. now apply IH.
Qed.

Lemma append_inj_l (p a b : string) : p ++ a = p ++ b -> a = b.
Proof. induction p as [| c p IH]; cbn; [auto | intros [= H]; auto]. Qed.

Lemma is_substring_intro (l sub r : string) : is_substring sub (l ++ sub ++ r).
Proof. now exists l, r. Qed.

(** ** The identifier *)

(** C1: the identifier of a data-type name is the fixed text around two
    copies of the name, whatever the name. *)
Theorem get_data_source_id_format (data_type_name : string) :
  get_data_source_id data_type_name
  = "derived:" ++ data_type_name ++ ":394921715331:microcloud:gfit-b100:1000001:"
      ++ data_type_name.
Proof.
  unfold get_data_source_id, PROJECT_NUMBER. reflexivity.
Qed.

(** ** Rules for [wp] *)

Section Rules.

Context {auth : GoogleAuth} {dt : DateTime}.

Lemma wp_run {A : Type} (m : M A) (Q : Outcome A -> list Event -> Prop) :
  wp m Q -> forall w, Q (run_outcome m w) (run_events m w).
Proof.
  intros H w. destruct (H w) as [evs [Ht HQ]].
  unfold run_outcome, run_events. rewrite Ht.
  rewrite skipn_app, skipn_all, Nat.sub_diag. exact HQ.
Qed.

Lemma wp_conseq {A : Type} (m : M A) (P Q : Outcome A -> list Event -> Prop) :
  wp m P -> (forall o evs, P o evs -> Q o evs) -> wp m Q.
Proof.
  intros H HPQ w. destruct (H w) as [evs [Ht HP]]. exists evs. auto.
Qed.

Lemma wp_ret {A : Type} (a : A) (Q : Outcome A -> list Event -> Prop) :
  Q (Returned a) [] -> wp (ret a) Q.
Proof.
  intros H w. exists []. simpl. rewrite app_nil_r. auto.
Qed.

Lemma wp_bind {A B : Type} (m : M A) (k : A -> M B)
    (Q : Outcome B -> list Event -> Prop) :
  wp m (fun o evs1 =>
          match o with
          | Returned a => wp (k a) (fun o' evs2 => Q o' (evs1 ++ evs2)%list)
          | Raised exn => Q (Raised exn) evs1
          end) ->
  wp (bind m k) Q.
Proof.
  intros H w. destruct (H w) as [evs1 [Ht HQ]]. unfold bind.
  destruct (m w) as [[a | exn] w1]; simpl in *.
  - destruct (HQ w1) as [evs2 [Ht2 HQ2]]. exists (evs1 ++ evs2)%list.
    rewrite Ht2, Ht, app_assoc. auto.
  - exists evs1. auto.
Qed.

Lemma wp_try_except {A : Type} (body : M A) (handler : HttpError -> M A)
    (Q : Outcome A -> list Event -> Prop) :
  wp body (fun o evs1 =>
             match o with
             | Raised (HttpErrorExc error) =>
                 wp (handler error) (fun o' evs2 => Q o' (evs1 ++ evs2)%list)
             | _ => Q o evs1
             end) ->
  wp (try_except body handler) Q.
Proof.
  intros H w. destruct (H w) as [evs1 [Ht HQ]]. unfold try_except.
  destruct (body w) as [[a | [error | path]] w1]; simpl in *.
  - exists evs1. auto.
  - destruct (HQ w1) as [evs2 [Ht2 HQ2]]. exists (evs1 ++ evs2)%list.
    rewrite Ht2, Ht, app_assoc. auto.
  - exists evs1. auto.
Qed.

Lemma wp_print (line : string) (Q : Outcome unit -> list Event -> Prop) :
  Q (Returned tt) [Printed line] -> wp (print line) Q.
Proof.
  intros H w. exists [Printed line]. simpl. auto.
Qed.

Lemma wp_execute (fitness_service : Service) (c : Call)
    (Q : Outcome Response -> list Event -> Prop) :
  (forall response, Q (Returned response) [Called c (inr response)]) ->
  (forall error, Q (Raised (HttpErrorExc error)) [Called c (inl error)]) ->
  wp (execute fitness_service c) Q.
Proof.
  intros Hok Herr w. unfold execute.
  destruct (remote w fitness_service (trace w) c) as [error | response];
    [exists [Called c (inl error)] | exists [Called c (inr response)]]; simpl; auto.
Qed.

Lemma wp_now (Q : Outcome datetime -> list Event -> Prop) :
  (forall t, Q (Returned t) []) -> wp now Q.
Proof.
  intros H w. exists []. simpl. rewrite app_nil_r. auto.
Qed.

Lemma wp_get_credentials :
  wp get_credentials (fun o evs => (exists creds, o = Returned creds) /\ auth_only evs).
Proof.
  intros w. unfold get_credentials, bind, path_exists, read, ret, refresh,
    run_local_server, write.
  destruct (files w "token.json") as [token |] eqn:Hfile; simpl;
    rewrite ?Hfile; simpl.
  - destruct (valid (from_authorized_user_info token)); simpl.
    + exists []. rewrite app_nil_r. simpl. eauto.
    + destruct (expired (from_authorized_user_info token)
                && truthy_str (refresh_token (from_authorized_user_info token))); simpl.
      * exists [Refreshed (from_authorized_user_info token)]. simpl. eauto.
      * exists [RanLocalServer "credentials.json" SCOPES 54321]. simpl. eauto.
  - exists [RanLocalServer "credentials.json" SCOPES 54321]. simpl. eauto.
Qed.

End Rules.

(** ** The credential manager *)

Section CredentialManager.

Context {auth : GoogleAuth} {dt : DateTime}.

(** The library documents [valid] as: the credential has a token and has not
    expired. *)
Hypothesis expired_is_invalid : forall creds, expired creds = true -> valid creds = false.

Lemma get_credentials_stored_valid (w : World) (creds : Credentials) :
  stored_credentials w = Some creds -> valid creds = true ->
  get_credentials w = (Returned creds, w).
Proof.
  unfold stored_credentials, get_credentials, bind, path_exists, read, ret.
  destruct (files w "token.json") as [token |] eqn:Hfile; [| discriminate].
  simpl. rewrite Hfile. intros [= <-] Hvalid. now rewrite Hvalid.
Qed.

Lemma get_credentials_refresh (w : World) (creds : Credentials) :
  stored_credentials w = Some creds ->
  expired creds = true -> truthy_str (refresh_token creds) = true ->
  get_credentials w
  = (Returned (token_endpoint w creds),
     write_file "token.json" (to_json (token_endpoint w creds))
       (record_event (Refreshed creds) w)).
Proof.
  unfold stored_credentials, get_credentials, bind, path_exists, read, ret.
  destruct (files w "token.json") as [token |] eqn:Hfile; [| discriminate].
  simpl. rewrite Hfile. intros [= <-] Hexpired Hrefresh.
  rewrite (expired_is_invalid _ Hexpired), Hexpired, Hrefresh. reflexivity.
Qed.

Lemma get_credentials_flow (w : World) :
  (stored_credentials w = None \/
   exists creds, stored_credentials w = Some creds /\ valid creds = false /\
     (expired creds = false \/ truthy_str (refresh_token creds) = false)) ->
  get_credentials w
  = (Returned (consent w "credentials.json" SCOPES 54321),
     write_file "token.json" (to_json (consent w "credentials.json" SCOPES 54321))
       (record_event (RanLocalServer "credentials.json" SCOPES 54321) w)).
Proof.
  unfold stored_credentials, get_credentials, bind, path_exists, read, ret.
  destruct (files w "token.json") as [token |] eqn:Hfile; simpl; rewrite ?Hfile.
  - intros [H | [creds [[= <-] [Hvalid Hor]]]]; [discriminate |].
    rewrite Hvalid. simpl.
    destruct Hor as [-> | ->]; [| rewrite andb_false_r]; reflexivity.
  - intros _. reflexivity.
Qed.

(** C7: a stored valid credential is returned as it is and nothing is
    written; a stored expired credential with a refresh token is refreshed
    and the refreshed credential is written to [token.json] and returned; in
    every other case (no stored credential, or an invalid one that is not
    expired or has no refresh token) the interactive flow runs and its
    credential is written to [token.json] and returned. *)
Theorem get_credentials_cases (w : World) :
  (forall creds, stored_credentials w = Some creds -> valid creds = true ->
     get_credentials w = (Returned creds, w))
  /\ (forall creds, stored_credentials w = Some creds ->
       expired creds = true -> truthy_str (refresh_token creds) = true ->
       get_credentials w
       = (Returned (token_endpoint w creds),
          write_file "token.json" (to_json (token_endpoint w creds))
            (record_event (Refreshed creds) w)))
  /\ ((stored_credentials w = None \/
        exists creds, stored_credentials w = Some creds /\ valid creds = false /\
          (expired creds = false \/ truthy_str (refresh_token creds) = false)) ->
       get_credentials w
       = (Returned (consent w "credentials.json" SCOPES 54321),
          write_file "token.json" (to_json (consent w "credentials.json" SCOPES 54321))
            (record_event (RanLocalServer "credentials.json" SCOPES 54321) w))).
Proof.
  split; [| split].
  - apply get_credentials_stored_valid.
  - apply get_credentials_refresh.
  - apply get_credentials_flow.
Qed.

End CredentialManager.

Lemma stub_expired_is_invalid (creds : StubCredentials) :
  stub_expired creds = true -> stub_valid creds = false.
Proof.
  unfold stub_valid. intros ->. now destruct (stub_token creds).
Qed.

Lemma get_credentials_cases_witness :
  (get_credentials (stub_world (Some "valid") api_ok)
   = (Returned (stub_of_text "valid"), stub_world (Some "valid") api_ok))
  /\ (get_credentials (stub_world (Some "expired refreshable") api_ok)
      = (Returned (stub_of_text "valid"),
         write_file "token.json" "valid"
           (record_event (Refreshed (stub_of_text "expired refreshable"))
              (stub_world (Some "expired refreshable") api_ok))))
  /\ (get_credentials (stub_world None api_ok)
      = (Returned (stub_of_text "valid"),
         write_file "token.json" "valid"
           (record_event (RanLocalServer "credentials.json" SCOPES 54321)
              (stub_world None api_ok)))).
Proof.
  split; [| split].
  - apply (proj1 (@get_credentials_cases StubAuth StubDateTime stub_expired_is_invalid
                    (stub_world (Some "valid") api_ok))); reflexivity.
  - apply (proj1 (proj2 (@get_credentials_cases StubAuth StubDateTime stub_expired_is_invalid
                    (stub_world (Some "expired refreshable") api_ok)))
             (stub_of_text "expired refreshable")); reflexivity.
  - apply (proj2 (proj2 (@get_credentials_cases StubAuth StubDateTime stub_expired_is_invalid
                    (stub_world None api_ok)))).
    left. reflexivity.
Defined.

(** ** The data source provisioner *)

Section Provisioner.

Context {auth : GoogleAuth} {dt : DateTime}.

Lemma wp_create_data_source (fitness_service : Service)
    (data_type_name application_name : string) :
  wp (create_data_source fitness_service data_type_name application_name)
     (fun o evs =>
        exists r, o = Returned r /\ provisioned data_type_name application_name r evs).
Proof.
  unfold create_data_source.
  apply wp_try_except, wp_bind, wp_execute.
  - intros response. apply wp_bind, wp_print, wp_ret.
    eexists; split; [reflexivity | apply provisioned_exists].
  - intros error. destruct (Z.eqb_spec (status error) 404) as [H404 | H404].
    + apply wp_try_except, wp_bind, wp_print, wp_bind, wp_execute.
      * intros response. apply wp_bind, wp_print, wp_ret.
        eexists; split; [reflexivity | now apply provisioned_created].
      * intros create_error. apply wp_bind, wp_print, wp_ret.
        eexists; split; [reflexivity | now apply provisioned_create_failed].
    + apply wp_bind, wp_print, wp_ret.
      eexists; split; [reflexivity | now apply provisioned_check_failed].
Qed.

(** C4: what [create_data_source] does, by the answers it gets.  If the
    existence check succeeds the identifier is returned.  If it fails with
    status 404 a creation request is submitted whose body is
    [new_data_source]; the identifier is returned when the creation succeeds
    and [None] when it fails.  If the existence check fails with another
    status, [None] is returned.  The body carries the field
    [activity]/[integer], [calories]/[floatPoint] or [steps]/[integer] for the
    three data types of the program. *)
Theorem create_data_source_cases (fitness_service : Service)
    (data_type_name application_name : string) (w : World) :
  let data_source_id := get_data_source_id data_type_name in
  let check := DataSourcesGet "me" data_source_id in
  let creation :=
    DataSourcesCreate "me" (new_data_source data_type_name application_name) in
  (forall response,
     remote w fitness_service (trace w) check = inr response ->
     create_data_source fitness_service data_type_name application_name w
     = (Returned (Some data_source_id),
        record_event (Printed ("Data source " ++ data_source_id ++ " already exists."))
          (record_event (Called check (inr response)) w)))
  /\ (forall error,
        remote w fitness_service (trace w) check = inl error ->
        status error = 404 ->
        let w1 :=
          record_event (Printed ("Creating data source: " ++ data_source_id))
            (record_event (Called check (inl error)) w) in
        (forall response,
           remote w fitness_service (trace w1) creation = inr response ->
           create_data_source fitness_service data_type_name application_name w
           = (Returned (Some data_source_id),
              record_event
                (Printed ("Data source created: "
                            ++ str_opt (resp_dataStreamId response)))
                (record_event (Called creation (inr response)) w1)))
        /\ (forall create_error,
              remote w fitness_service (trace w1) creation = inl create_error ->
              create_data_source fitness_service data_type_name application_name w
              = (Returned None,
                 record_event
                   (Printed ("Error creating data source: " ++ text create_error))
                   (record_event (Called creation (inl create_error)) w1))))
  /\ (forall error,
        remote w fitness_service (trace w) check = inl error ->
        status error <> 404 ->
        create_data_source fitness_service data_type_name application_name w
        = (Returned None,
           record_event (Printed ("Error checking data source: " ++ text error))
             (record_event (Called check (inl error)) w)))
  /\ ds_dataStreamId (new_data_source data_type_name application_name) = data_source_id
  /\ dt_field (ds_dataType (new_data_source "com.google.activity.segment"
                              application_name))
     = [ {| field_name := "activity"; field_format := "integer" |} ]
  /\ dt_field (ds_dataType (new_data_source "com.google.calories.expended"
                              application_name))
     = [ {| field_name := "calories"; field_format := "floatPoint" |} ]
  /\ dt_field (ds_dataType (new_data_source "com.google.step_count.delta"
                              application_name))
     = [ {| field_name := "steps"; field_format := "integer" |} ].
Proof.
  intros data_source_id check creation.
  split; [| split; [| split; [| split; [| repeat split]]]].
  - intros response Hcheck.
    unfold create_data_source, try_except, bind, execute.
    fold data_source_id check. rewrite Hcheck. reflexivity.
  - intros error Hcheck H404 w1.
    split; [intros response Hcreate | intros create_error Hcreate];
      subst w1; simpl in Hcreate;
      unfold create_data_source, try_except, bind, execute;
      fold data_source_id check; rewrite Hcheck; simpl;
      rewrite H404; simpl; fold creation; rewrite Hcreate; reflexivity.
  - intros error Hcheck H404.
    unfold create_data_source, try_except, bind, execute.
    fold data_source_id check. rewrite Hcheck. simpl.
    destruct (Z.eqb_spec (status error) 404) as [Heq | _]; [contradiction | reflexivity].
  - unfold new_data_source.
    repeat match goal with |- context [if ?b then _ else _] => destruct b end;
      reflexivity.
Qed.

End Provisioner.

Lemma create_data_source_cases_witness :
  let w := stub_world (Some "valid") (api_failing is_existence_check 404) in
  let ran := create_data_source stub_service "com.google.step_count.delta" "GFit B100" w in
  fst ran = Returned (Some (get_data_source_id "com.google.step_count.delta"))
  /\ calls (trace (snd ran))
     = [ DataSourcesGet "me" (get_data_source_id "com.google.step_count.delta");
         DataSourcesCreate "me" (new_data_source "com.google.step_count.delta" "GFit B100") ].
Proof.
  intros w ran. subst ran.
  rewrite (proj1 (proj1 (proj2 (create_data_source_cases stub_service
                                  "com.google.step_count.delta" "GFit B100" w))
                    (http_error 404) eq_refl eq_refl)
             ok_response eq_refl).
  split; reflexivity.
Defined.

(** ** The cleanup routine *)

Ltac wp_step :=
  cbv beta iota;
  lazymatch goal with
  | |- wp (bind _ _) _ => apply wp_bind
  | |- wp (try_except _ _) _ => apply wp_try_except
  | |- wp (print _) _ => apply wp_print
  | |- wp (ret _) _ => apply wp_ret
  | |- wp (execute _ _) _ => apply wp_execute; intros
  | |- wp now _ => apply wp_now; intros
  end.

Section Cleanup.

Context {auth : GoogleAuth} {dt : DateTime}.

Lemma wp_session_deletions (fitness_service : Service) (listed : list SessionItem) :
  wp (for_each listed (fun session =>
        try_except
          (bind (execute fitness_service (SessionsDelete "me" (item_id session)))
             (fun _ => print ("Deleted session " ++ item_id session)))
          (fun error =>
             print ("Error deleting session " ++ item_id session ++ ": "
                      ++ text error))))
     (fun o evs => o = Returned tt /\ session_deletions listed evs).
Proof.
  induction listed as [| session listed IH]; simpl for_each.
  - apply wp_ret. split; [reflexivity | constructor].
  - do 4 wp_step.
    + wp_step. cbv beta iota. eapply wp_conseq; [apply IH |].
      intros o evs [-> H]. split; [reflexivity |]. simpl. now constructor.
    + wp_step. cbv beta iota. eapply wp_conseq; [apply IH |].
      intros o evs [-> H]. split; [reflexivity |]. simpl. now constructor.
Qed.

Lemma wp_dataset_deletions (fitness_service : Service) (dataset_id : string)
    (listed : list DataSourceItem) :
  wp (for_each listed (fun data_source =>
        if created_by_our_script (item_dataStreamId data_source) then
          try_except
            (bind (execute fitness_service
                     (DatasetsDelete "me" (item_dataStreamId data_source) dataset_id))
               (fun _ => print ("Deleted dataset for " ++ item_dataStreamId data_source)))
            (fun error =>
               if negb (Z.eqb (status error) 404) then
                 print ("Error deleting dataset for " ++ item_dataStreamId data_source
                          ++ ": " ++ text error)
               else ret tt)
        else ret tt))
     (fun o evs => o = Returned tt /\ dataset_deletions dataset_id listed evs).
Proof.
  induction listed as [| data_source listed IH]; simpl for_each.
  - apply wp_ret. split; [reflexivity | constructor].
  - wp_step.
    destruct (created_by_our_script (item_dataStreamId data_source)) eqn:Hours.
    + do 3 wp_step.
      * wp_step. cbv beta iota. eapply wp_conseq; [apply IH |].
        intros o evs [-> H]. split; [reflexivity |]. simpl.
        now apply dataset_deletions_ok.
      * cbv beta iota.
        destruct (Z.eqb_spec (status error) 404) as [H404 | H404]; simpl negb.
        -- wp_step. cbv beta iota. eapply wp_conseq; [apply IH |].
           intros o evs [-> H]. split; [reflexivity |]. simpl.
           now apply dataset_deletions_not_found.
        -- wp_step. cbv beta iota. eapply wp_conseq; [apply IH |].
           intros o evs [-> H]. split; [reflexivity |]. simpl.
           now apply dataset_deletions_error.
    + wp_step. cbv beta iota. eapply wp_conseq; [apply IH |].
      intros o evs [-> H]. split; [reflexivity |]. simpl.
      now apply dataset_deletions_skip.
Qed.

Lemma wp_clean_up_todays_activities :
  wp clean_up_todays_activities
     (fun o evs => o = Returned true /\ cleanup_shape evs).
Proof.
  unfold clean_up_todays_activities.
  wp_step. eapply wp_conseq; [apply wp_get_credentials |].
  intros o authorization [[creds ->] Hauth].
  wp_step. wp_step. rename t into current.
  wp_step. wp_step. wp_step.
  (* the two phases, each with the shape of its events *)
  assert (Hsessions : forall fitness_service startTime endTime,
    wp (try_except
          (bind (execute fitness_service (SessionsList "me" startTime endTime))
             (fun sessions =>
                match resp_session sessions with
                | Some listed =>
                    for_each listed (fun session =>
                      try_except
                        (bind (execute fitness_service
                                 (SessionsDelete "me" (item_id session)))
                           (fun _ => print ("Deleted session " ++ item_id session)))
                        (fun error =>
                           print ("Error deleting session " ++ item_id session ++ ": "
                                    ++ text error)))
                | None => print "No sessions found for today"
                end))
          (fun error => print ("Error listing sessions: " ++ text error)))
       (fun o evs => o = Returned tt /\ session_phase evs)).
  { intros fitness_service startTime endTime. do 3 wp_step.
    - cbv beta iota. destruct (resp_session response) as [listed |] eqn:Hlisted.
      + eapply wp_conseq; [apply wp_session_deletions |].
        intros o evs [-> H]. split; [reflexivity |].
        now apply session_phase_listed with (listed := listed).
      + wp_step. split; [reflexivity |]. now apply session_phase_none.
    - wp_step. split; [reflexivity |]. apply session_phase_error. }
  assert (Hdatasets : forall fitness_service dataset_id,
    wp (try_except
          (bind (execute fitness_service (DataSourcesList "me"))
             (fun data_sources_result =>
                match resp_dataSource data_sources_result with
                | Some listed =>
                    for_each listed (fun data_source =>
                      if created_by_our_script (item_dataStreamId data_source) then
                        try_except
                          (bind (execute fitness_service
                                   (DatasetsDelete "me" (item_dataStreamId data_source)
                                      dataset_id))
                             (fun _ =>
                                print ("Deleted dataset for "
                                         ++ item_dataStreamId data_source)))
                          (fun error =>
                             if negb (Z.eqb (status error) 404) then
                               print ("Error deleting dataset for "
                                        ++ item_dataStreamId data_source
                                        ++ ": " ++ text error)
                             else ret tt)
                      else ret tt)
                | None => print "No data sources found"
                end))
          (fun error => print ("Error listing data sources: " ++ text error)))
       (fun o evs => o = Returned tt /\ dataset_phase evs)).
  { intros fitness_service dataset_id. do 3 wp_step.
    - cbv beta iota. destruct (resp_dataSource response) as [listed |] eqn:Hlisted.
      + eapply wp_conseq; [apply wp_dataset_deletions |].
        intros o evs [-> H]. split; [reflexivity |].
        now apply dataset_phase_listed with (listed := listed) (dataset_id := dataset_id).
      + wp_step. split; [reflexivity |]. now apply dataset_phase_none.
    - wp_step. split; [reflexivity |]. apply dataset_phase_error. }
  eapply wp_conseq; [apply Hsessions |]. intros o sessions [-> Hsp].
  wp_step. eapply wp_conseq; [apply Hdatasets |]. intros o datasets [-> Hdp].
  do 3 wp_step. split; [reflexivity |].
  exists authorization. eexists. exists sessions, datasets.
  split; [| auto].
  reflexivity.
Qed.

End Cleanup.

(** ** Observations and concatenation *)

Section Observations.

Context {auth : GoogleAuth} {dt : DateTime}.

Ltac by_events a IH :=
  induction a as [| [line | [] [] | |] a IH]; simpl; intros;
  rewrite ?IH; try reflexivity.

Lemma calls_app (a b : list Event) : calls (a ++ b) = (calls a ++ calls b)%list.
Proof. by_events a IH. Qed.

Lemma session_deletes_app (a b : list Event) :
  session_deletes (a ++ b) = (session_deletes a ++ session_deletes b)%list.
Proof. by_events a IH. Qed.

Lemma dataset_deletes_app (a b : list Event) :
  dataset_deletes (a ++ b) = (dataset_deletes a ++ dataset_deletes b)%list.
Proof. by_events a IH. Qed.

Lemma aggregations_app (a b : list Event) :
  aggregations (a ++ b) = (aggregations a ++ aggregations b)%list.
Proof. by_events a IH. Qed.

Lemma listed_sessions_app (a b : list Event) :
  listed_sessions (a ++ b) = (listed_sessions a ++ listed_sessions b)%list.
Proof.
  by_events a IH.
  destruct (resp_session r); [now rewrite app_assoc | reflexivity].
Qed.

Lemma listed_data_sources_app (a b : list Event) :
  listed_data_sources (a ++ b) = (listed_data_sources a ++ listed_data_sources b)%list.
Proof.
  by_events a IH.
  destruct (resp_dataSource r); [now rewrite app_assoc | reflexivity].
Qed.

Lemma failures_printed_app (a b : list Event) :
  failures_printed a -> failures_printed b -> failures_printed (a ++ b).
Proof.
  induction a as [| [line | c [error | response] | |] a IH]; simpl; auto.
  intros [[Hsilent | [line [rest' [-> Hends]]]] Ha] Hb.
  - auto.
  - split; [right; exists line, (rest' ++ b)%list; auto | auto].
Qed.

Lemma no_abort_app (a b : list Event) :
  no_abort a -> no_abort b -> no_abort (a ++ b).
Proof.
  induction a as [| [line | c [error | response] | |] a IH]; simpl; auto.
  intros [H Ha] Hb. auto.
Qed.

(** Authorization steps are invisible to every observation. *)
Lemma auth_only_observed (a : list Event) :
  auth_only a ->
  calls a = [] /\ session_deletes a = [] /\ dataset_deletes a = []
  /\ aggregations a = [] /\ listed_sessions a = [] /\ listed_data_sources a = []
  /\ failures_printed a /\ no_abort a.
Proof.
  induction a as [| [line | c r | |] a IH]; simpl; intros H;
    try contradiction; auto 10.
Qed.

Lemma auth_only_deletions_reported (a b : list Event) :
  auth_only a -> deletions_reported b -> deletions_reported (a ++ b).
Proof.
  induction a as [| [line | c r | |] a IH]; simpl; intros H; try contradiction; auto.
Qed.

End Observations.

Section CleanupFacts.

Context {auth : GoogleAuth} {dt : DateTime}.

Lemma session_deletions_observed listed evs :
  session_deletions listed evs ->
  session_deletes evs = map item_id listed /\ dataset_deletes evs = []
  /\ listed_sessions evs = [] /\ listed_data_sources evs = []
  /\ failures_printed evs.
Proof.
  induction 1 as [| session listed response evs H IH | session listed error evs H IH];
    simpl; [auto 6 | |]; destruct IH as (-> & ? & ? & ? & ?).
  - auto 6.
  - repeat split; auto. right. eexists; eexists. split; [reflexivity |].
    exists ("Error deleting session " ++ item_id session ++ ": ").
    now rewrite !append_assoc.
Qed.

Lemma dataset_deletions_observed dataset_id listed evs :
  dataset_deletions dataset_id listed evs ->
  dataset_deletes evs = map item_dataStreamId (filter ours listed)
  /\ session_deletes evs = []
  /\ listed_sessions evs = [] /\ listed_data_sources evs = []
  /\ failures_printed evs.
Proof.
  unfold ours.
  induction 1 as [| data_source listed evs Hours H IH
                  | data_source listed response evs Hours H IH
                  | data_source listed error evs Hours H404 H IH
                  | data_source listed error evs Hours H404 H IH];
    simpl; [auto 6 | | | |]; rewrite Hours; destruct IH as (-> & ? & ? & ? & ?).
  - auto 6.
  - simpl. auto 6.
  - simpl. repeat split; auto. left. now apply Z.eqb_eq.
  - simpl. repeat split; auto. right. eexists; eexists. split; [reflexivity |].
    exists ("Error deleting dataset for " ++ item_dataStreamId data_source ++ ": ").
    now rewrite !append_assoc.
Qed.

Lemma session_deletions_reported listed evs tail :
  session_deletions listed evs -> deletions_reported tail ->
  deletions_reported (evs ++ tail).
Proof.
  induction 1; simpl; auto.
Qed.

Lemma dataset_deletions_quiet dataset_id listed evs tail :
  dataset_deletions dataset_id listed evs -> quiet_head tail ->
  quiet_head (evs ++ tail).
Proof.
  induction 1; simpl; auto; intros; exact I.
Qed.

Lemma dataset_deletions_reported dataset_id listed evs tail :
  dataset_deletions dataset_id listed evs ->
  quiet_head tail -> deletions_reported tail ->
  deletions_reported (evs ++ tail).
Proof.
  induction 1 as [| data_source listed evs Hours H IH
                  | data_source listed response evs Hours H IH
                  | data_source listed error evs Hours H404 H IH
                  | data_source listed error evs Hours H404 H IH];
    simpl; auto; intros Hquiet Htail.
  - rewrite (proj2 (Z.eqb_eq _ _) H404). split; [| auto].
    apply (dataset_deletions_quiet _ _ _ _ H Hquiet).
  - rewrite (proj2 (Z.eqb_neq _ _) H404). auto.
Qed.

Lemma session_phase_observed evs :
  session_phase evs ->
  session_deletes evs = map item_id (listed_sessions evs)
  /\ dataset_deletes evs = [] /\ listed_data_sources evs = []
  /\ failures_printed evs
  /\ forall tail, deletions_reported tail -> deletions_reported (evs ++ tail).
Proof.
  destruct 1 as [startTime endTime error | startTime endTime response Hnone
                 | startTime endTime response listed evs Hlisted Hloop]; simpl.
  - repeat split; auto. right. eexists; eexists. split; [reflexivity |].
    now exists "Error listing sessions: ".
  - rewrite Hnone. auto 6.
  - rewrite Hlisted.
    destruct (session_deletions_observed _ _ Hloop) as (-> & -> & -> & -> & Hfp).
    rewrite app_nil_r. repeat split; auto.
    intros tail. now apply (session_deletions_reported listed).
Qed.

Lemma dataset_phase_observed evs :
  dataset_phase evs ->
  dataset_deletes evs = map item_dataStreamId (filter ours (listed_data_sources evs))
  /\ session_deletes evs = [] /\ listed_sessions evs = []
  /\ failures_printed evs
  /\ forall tail, quiet_head tail -> deletions_reported tail ->
       deletions_reported (evs ++ tail).
Proof.
  destruct 1 as [error | response Hnone
                 | response listed dataset_id evs Hlisted Hloop]; simpl.
  - repeat split; auto. right. eexists; eexists. split; [reflexivity |].
    now exists "Error listing data sources: ".
  - rewrite Hnone. auto 6.
  - rewrite Hlisted.
    destruct (dataset_deletions_observed _ _ _ Hloop) as (-> & -> & -> & -> & Hfp).
    rewrite app_nil_r. repeat split; auto.
    intros tail. now apply (dataset_deletions_reported dataset_id listed).
Qed.

Lemma cleanup_shape_observed evs :
  cleanup_shape evs ->
  session_deletes evs = map item_id (listed_sessions evs)
  /\ dataset_deletes evs = map item_dataStreamId (filter ours (listed_data_sources evs))
  /\ failures_printed evs
  /\ deletions_reported evs.
Proof.
  intros (authorization & header & sessions & datasets & -> & Hauth & Hsp & Hdp).
  destruct (auth_only_observed _ Hauth) as (_ & Ha1 & Ha2 & _ & Ha3 & Ha4 & Ha5 & _).
  destruct (session_phase_observed _ Hsp) as (Hs1 & Hs2 & Hs3 & Hs4 & Hs5).
  destruct (dataset_phase_observed _ Hdp) as (Hd1 & Hd2 & Hd3 & Hd4 & Hd5).
  change (Printed header :: sessions ++ datasets ++ [Printed "Cleanup completed"])%list
    with ([Printed header] ++ sessions ++ datasets ++ [Printed "Cleanup completed"])%list.
  rewrite !session_deletes_app, !dataset_deletes_app, !listed_sessions_app,
    !listed_data_sources_app.
  rewrite Ha1, Ha2, Ha3, Ha4, Hs1, Hs2, Hs3, Hd1, Hd2, Hd3. simpl.
  rewrite !app_nil_r. repeat split.
  - apply failures_printed_app; [assumption |]. simpl.
    apply failures_printed_app; [assumption |].
    apply failures_printed_app; [assumption |]. simpl. auto.
  - apply auth_only_deletions_reported; [assumption |].
    simpl. apply Hs5. apply Hd5; [reflexivity | simpl; auto].
Qed.

End CleanupFacts.

Section CleanupClaims.

Context {auth : GoogleAuth} {dt : DateTime}.

Lemma cleanup_run_observed (w : World) :
  let evs := run_events clean_up_todays_activities w in
  run_outcome clean_up_todays_activities w = Returned true
  /\ session_deletes evs = map item_id (listed_sessions evs)
  /\ dataset_deletes evs = map item_dataStreamId (filter ours (listed_data_sources evs))
  /\ failures_printed evs
  /\ deletions_reported evs.
Proof.
  destruct (wp_run _ _ wp_clean_up_todays_activities w) as [Hout Hshape].
  split; [exact Hout | now apply cleanup_shape_observed].
Qed.

Lemma created_by_our_script_spec (data_source_id : string) :
  created_by_our_script data_source_id = true <->
  is_substring "394921715331" data_source_id /\ is_substring "microcloud" data_source_id.
Proof.
  unfold created_by_our_script, PROJECT_NUMBER.
  now rewrite andb_true_iff, !str_in_spec.
Qed.

(** C2: during cleanup, a data source returned by the listing gets a
    dataset-delete call exactly when its identifier contains the project
    number and the text [microcloud]; and every dataset-delete call that is
    issued addresses an identifier that contains both. *)
Theorem cleanup_deletes_marked_only (w : World) :
  let evs := run_events clean_up_todays_activities w in
  (forall data_source,
     In data_source (listed_data_sources evs) ->
     (In (item_dataStreamId data_source) (dataset_deletes evs) <->
      is_substring "394921715331" (item_dataStreamId data_source)
      /\ is_substring "microcloud" (item_dataStreamId data_source)))
  /\ (forall data_source_id,
        In data_source_id (dataset_deletes evs) ->
        is_substring "394921715331" data_source_id
        /\ is_substring "microcloud" data_source_id).
Proof.
  intros evs. destruct (cleanup_run_observed w) as (_ & _ & Hdel & _). fold evs in Hdel.
  rewrite Hdel. split.
  - intros data_source Hin. rewrite <- created_by_our_script_spec, in_map_iff. split.
    + intros [other [Hid Hother]]. apply filter_In in Hother as [_ Hother].
      unfold ours in Hother. now rewrite <- Hid.
    + intros Hours. exists data_source. split; [reflexivity |].
      apply filter_In. auto.
  - intros data_source_id Hin. apply in_map_iff in Hin as [data_source [<- Hin]].
    apply filter_In in Hin as [_ Hin]. now apply created_by_our_script_spec.
Qed.

(** C5, amended: during cleanup every listed session and every listed data
    source with the marker gets its deletion call, whatever the answers to
    the earlier deletions were; a failed session deletion, of any status, is
    followed by its error line; a failed dataset deletion is followed by its
    error line unless the status is 404, in which case nothing is printed
    for it; and the routine returns [True]. *)
Theorem cleanup_continues_after_deletion_errors (w : World) :
  let evs := run_events clean_up_todays_activities w in
  deletions_reported evs
  /\ session_deletes evs = map item_id (listed_sessions evs)
  /\ dataset_deletes evs = map item_dataStreamId (filter ours (listed_data_sources evs))
  /\ run_outcome clean_up_todays_activities w = Returned true.
Proof.
  intros evs. destruct (cleanup_run_observed w) as (Hout & Hs & Hd & _ & Hrep).
  auto.
Qed.

End CleanupClaims.

Lemma cleanup_deletes_marked_only_witness :
  let evs := run_events clean_up_todays_activities
               (stub_world (Some "valid") (api_listing 404 404)) in
  (In (get_data_source_id "com.google.step_count.delta") (dataset_deletes evs) <->
   is_substring "394921715331" (get_data_source_id "com.google.step_count.delta")
   /\ is_substring "microcloud" (get_data_source_id "com.google.step_count.delta"))
  /\ (is_substring "394921715331" (get_data_source_id "com.google.calories.expended")
      /\ is_substring "microcloud" (get_data_source_id "com.google.calories.expended")).
Proof.
  intros evs. split.
  - apply (proj1 (cleanup_deletes_marked_only
                    (stub_world (Some "valid") (api_listing 404 404)))
             {| item_dataStreamId := get_data_source_id "com.google.step_count.delta" |}).
    vm_compute. auto.
  - apply (proj2 (cleanup_deletes_marked_only
                    (stub_world (Some "valid") (api_listing 404 404)))).
    vm_compute. auto.
Defined.

(** C5 as stated fails: the session [s1] is answered with status 404 on
    deletion, and the line that reports the error is printed. *)
Lemma cleanup_reports_session_not_found :
  let evs := run_events clean_up_todays_activities
               (stub_world (Some "valid") (api_listing 404 404)) in
  exists before after,
    evs = (before
           ++ [ Called (SessionsDelete "me" "s1") (inl (http_error 404));
                Printed "Error deleting session s1: HttpError 404" ]
           ++ after)%list.
Proof.
  eexists [_; _]. eexists. vm_compute. reflexivity.
Qed.

(** ** The activity logger *)

Lemma subsequence_nil_l {A : Type} (l : list A) : subsequence [] l.
Proof. induction l; constructor; auto. Qed.

Lemma subsequence_refl {A : Type} (l : list A) : subsequence l l.
Proof. induction l; [constructor | now apply subsequence_take]. Qed.

Lemma subsequence_app {A : Type} (a a' b b' : list A) :
  subsequence a a' -> subsequence b b' -> subsequence (a ++ b) (a' ++ b').
Proof.
  induction 1; simpl; intros; auto.
  - now apply subsequence_skip; auto.
  - now apply subsequence_take; auto.
Qed.

Lemma subsequence_skip_app {A : Type} (a' b b' : list A) :
  subsequence b b' -> subsequence b (a' ++ b').
Proof. intros H. apply (subsequence_app [] a' b b' (subsequence_nil_l a') H). Qed.

Lemma subsequence_In {A : Type} (l l' : list A) (x : A) :
  subsequence l l' -> In x l -> In x l'.
Proof. induction 1; simpl; intuition. Qed.

Lemma subsequence_NoDup {A : Type} (l l' : list A) :
  subsequence l l' -> NoDup l' -> NoDup l.
Proof.
  induction 1; intros Hnd; auto.
  - inversion Hnd; auto.
  - inversion Hnd as [| y m Hnotin Hm]; subst. constructor; auto.
    intros Hin. apply Hnotin. eapply subsequence_In; eauto.
Qed.

Ltac solve_subsequence :=
  repeat first [ apply subsequence_nil_l | apply subsequence_take
               | apply subsequence_skip ].

Ltac solve_ends_with :=
  repeat first [ apply ends_with_refl | apply ends_with_prepend ].

#[local] Arguments String.append : simpl never.
#[local] Arguments get_data_source_id : simpl never.

Section ActivityLogger.

Context {auth : GoogleAuth} {dt : DateTime}.

Lemma new_data_source_id (data_type_name application_name : string) :
  ds_dataStreamId (new_data_source data_type_name application_name)
  = get_data_source_id data_type_name.
Proof.
  unfold new_data_source.
  repeat match goal with |- context [if ?b then _ else _] => destruct b end;
    reflexivity.
Qed.

Lemma provisioned_observed data_type_name application_name r evs :
  provisioned data_type_name application_name r evs ->
  (r = None \/ r = Some (get_data_source_id data_type_name))
  /\ subsequence (calls evs) (provision_calls data_type_name application_name)
  /\ failures_printed evs
  /\ aggregations evs = []
  /\ (r <> None -> no_abort evs)
  /\ (String.eqb (get_data_source_id data_type_name)
        (get_data_source_id "com.google.activity.segment") = false ->
      no_abort evs).
Proof.
  destruct 1 as [response | error response H404 | error create_error H404 | error H404];
    unfold provision_calls; simpl; rewrite ?new_data_source_id;
    rewrite ?H404; simpl; rewrite ?andb_false_r;
    (split; [auto | split; [solve_subsequence | split; [| split; [reflexivity |]]]]).
  - auto.
  - auto.
  - auto.
  - auto.
  - split; [auto | split; [| auto]]. right. eexists; eexists.
    split; [reflexivity | solve_ends_with].
  - split; [intros H; now contradiction H | intros ->; auto].
  - split; [| auto]. right. eexists; eexists.
    split; [reflexivity | solve_ends_with].
  - split; [intros H; now contradiction H | intros ->; auto].
Qed.

Lemma as_truthy_data_source_id (data_type_name : string) :
  as_truthy (Some (get_data_source_id data_type_name))
  = Some (get_data_source_id data_type_name).
Proof. reflexivity. Qed.

Lemma optionally_provisioned_observed flag data_type_name r evs :
  optionally_provisioned flag data_type_name r evs ->
  String.eqb (get_data_source_id data_type_name)
    (get_data_source_id "com.google.activity.segment") = false ->
  (r = None \/ (flag = true /\ r = Some (get_data_source_id data_type_name)))
  /\ subsequence (calls evs)
       (if flag then provision_calls data_type_name default_application_name else [])
  /\ failures_printed evs
  /\ aggregations evs = []
  /\ no_abort evs.
Proof.
  unfold optionally_provisioned. destruct flag.
  - intros H Hneq.
    destruct (provisioned_observed _ _ _ _ H) as ([-> | ->] & ? & ? & ? & ? & Hna);
      auto 10.
  - intros [-> ->] _. simpl. repeat split; auto. constructor.
Qed.

(** The post-condition of [log_activity], from what is known of the three
    provisionings and of the events [tail] that follow them. *)
Lemma log_activity_post_intro activity_type start_time end_time calories steps
    evs0 evsA rA evsC flagC rC evsS flagS rS b tail :
  auth_only evs0 ->
  provisioned "com.google.activity.segment" default_application_name rA evsA ->
  optionally_provisioned flagC "com.google.calories.expended" rC evsC ->
  optionally_provisioned flagS "com.google.step_count.delta" rS evsS ->
  flagC = truthy_calories calories ->
  flagS = truthy_steps steps ->
  subsequence (calls tail)
    (planned_writes activity_type start_time end_time calories steps) ->
  failures_printed tail ->
  (b = true -> rA <> None /\ no_abort tail) ->
  aggregations tail
  = (if truthy_steps steps && b then [ aggregation_request start_time end_time ] else []) ->
  (b = true ->
   In (patch_call start_time end_time "com.google.activity.segment"
         (intVal activity_type)) (calls tail)
   /\ In (session_call activity_type start_time end_time) (calls tail)) ->
  log_activity_post activity_type start_time end_time calories steps
    (Returned b) (evs0 ++ evsA ++ evsC ++ evsS ++ tail).
Proof.
  intros H0 HA HC HS -> -> Hsub Hfp Hna Hagg Hin.
  destruct (auth_only_observed _ H0) as (H01 & _ & _ & H02 & _ & _ & H03 & H04).
  destruct (provisioned_observed _ _ _ _ HA) as (_ & HA1 & HA2 & HA3 & HA4 & _).
  destruct (optionally_provisioned_observed _ _ _ _ HC eq_refl)
    as (_ & HC1 & HC2 & HC3 & HC4).
  destruct (optionally_provisioned_observed _ _ _ _ HS eq_refl)
    as (_ & HS1 & HS2 & HS3 & HS4).
  exists b. split; [reflexivity |].
  rewrite !calls_app, !aggregations_app, H01, H02, HA3, HC3, HS3. simpl.
  split; [| split; [| split; [| split]]].
  - unfold planned_calls, planned_provisioning. rewrite <- !app_assoc.
    repeat apply subsequence_app; assumption.
  - repeat apply failures_printed_app; assumption.
  - intros Hb. destruct (Hna Hb) as [HrA Htail].
    repeat apply no_abort_app; auto.
  - exact Hagg.
  - intros Hb. destruct (Hin Hb) as [Hpatch Hsession].
    rewrite !in_app_iff. auto 10.
Qed.

Ltac rewrite_tests :=
  cbn [truthy_steps truthy_calories] in *;
  repeat match goal with
         | H : ?b = ?b |- _ => clear H
         end;
  repeat match goal with
         | H : ?x = true |- context [?x] => rewrite H
         | H : ?x = false |- context [?x] => rewrite H
         end.

Ltac absurd_tests :=
  cbn [truthy_steps truthy_calories] in *;
  match goal with
  | H : false = true |- _ => discriminate H
  | H : true = false |- _ => discriminate H
  | H : ?x = true, H' : ?x = false |- _ => rewrite H in H'; discriminate H'
  end.

Ltac drive :=
  repeat first
    [ wp_step
    | match goal with
      | |- wp (match ?x with Some _ => _ | None => _ end) _ => is_var x; destruct x
      | |- wp (if ?b then _ else _) _ => destruct b eqn:?
      | |- wp (log_session _ _ _ _) _ => unfold log_session
      | |- wp (request_data_aggregation _ _ _) _ => unfold request_data_aggregation
      end ].

Ltac fp_tail :=
  repeat match goal with
         | |- True => exact I
         | |- _ /\ _ => split
         | |- _ \/ _ =>
             right; eexists; eexists; split; [reflexivity | solve_ends_with]
         end.

Ltac leaf_goal :=
  lazymatch goal with
  | |- _ = truthy_calories _ => first [ reflexivity | rewrite_tests; reflexivity ]
  | |- _ = truthy_steps _ => first [ reflexivity | rewrite_tests; reflexivity ]
  | |- subsequence _ _ =>
      unfold planned_writes, patch_call, session_call, aggregate_call;
      rewrite_tests; cbv beta iota;
      repeat match goal with
             | |- context [if ?b then _ else _] => destruct b; cbv beta iota
             end;
      cbn [calls app]; solve_subsequence
  | |- failures_printed _ => cbn [app failures_printed handled_silently]; fp_tail
  | |- _ -> _ /\ no_abort _ =>
      let Hb := fresh "Hb" in
      intros Hb;
      first [ discriminate Hb
            | split; [discriminate | cbn [app no_abort aborts]; auto 10] ]
  | |- aggregations _ = _ =>
      rewrite_tests; rewrite ?andb_false_r; cbn [app aggregations andb]; reflexivity
  | |- _ -> In _ _ /\ _ =>
      let Hb := fresh "Hb" in
      intros Hb;
      first [ discriminate Hb
            | cbn [app calls]; unfold patch_call, session_call; simpl In; auto 10 ]
  end.

Ltac leaf :=
  first [ absurd_tests
        | eapply log_activity_post_intro; try eassumption; leaf_goal ].

Lemma wp_log_activity (activity_type : Z) (start_time end_time : datetime)
    (calories : option number) (steps : option Z) :
  wp (log_activity activity_type start_time end_time calories steps)
     (log_activity_post activity_type start_time end_time calories steps).
Proof.
  unfold log_activity.
  wp_step. eapply wp_conseq; [apply wp_get_credentials |].
  intros o evs0 [[creds ->] Hauth].
  wp_step. eapply wp_conseq; [apply wp_create_data_source |].
  intros o evsA [rA [-> HA]].
  wp_step.
  assert (Hopt : forall fitness_service (flag : bool) data_type_name,
    wp (if flag
        then create_data_source fitness_service data_type_name default_application_name
        else ret None)
       (fun o evs => exists r, o = Returned r /\
          optionally_provisioned flag data_type_name r evs)).
  { intros fitness_service [] data_type_name;
      [apply wp_create_data_source | apply wp_ret; eexists; split; [reflexivity|]; split; reflexivity]. }
  eapply wp_conseq; [apply Hopt |]. intros o evsC [rC [-> HC]].
  wp_step. eapply wp_conseq; [apply Hopt |]. intros o evsS [rS [-> HS]].
  clear Hopt. cbv beta iota.
  destruct (provisioned_observed _ _ _ _ HA) as ([-> | ->] & _);
  destruct (optionally_provisioned_observed _ _ _ _ HC eq_refl) as ([-> | [HflagC ->]] & _);
  destruct (optionally_provisioned_observed _ _ _ _ HS eq_refl) as ([-> | [HflagS ->]] & _);
  rewrite ?as_truthy_data_source_id; cbn [as_truthy]; drive.
  all: leaf.
Qed.

End ActivityLogger.

(** ** Claims on the activity logger *)

Section ActivityLoggerClaims.

Context {auth : GoogleAuth} {dt : DateTime}.

Lemma In_calls (evs : list Event) (c : Call) (r : HttpError + Response) :
  In (Called c r) evs -> In c (calls evs).
Proof.
  induction evs as [| [line | c' r' | |] evs IH]; simpl; intros H; auto;
    destruct H as [H | H]; try discriminate; auto.
  injection H as -> _. now left.
Qed.

Lemma no_abort_In (evs : list Event) (c : Call) (error : HttpError) :
  no_abort evs -> In (Called c (inl error)) evs -> aborts c error = false.
Proof.
  induction evs as [| [line | c' [error' | response] | |] evs IH]; simpl;
    intros Hna H; try contradiction;
    destruct H as [H | H]; try discriminate; auto.
  - injection H as -> ->. tauto.
  - tauto.
Qed.

Lemma planned_calls_no_deletion activity_type start_time end_time calories steps c :
  In c (planned_calls activity_type start_time end_time calories steps) ->
  is_deletion c = false.
Proof.
  unfold planned_calls, planned_provisioning, planned_writes, provision_calls,
    patch_call, session_call, aggregate_call.
  destruct (truthy_calories calories), (truthy_steps steps),
    calories as [calories_value |], steps as [steps_value |];
    try destruct (truthy_number calories_value);
    try destruct (negb (Z.eqb steps_value 0));
    cbn [app In]; intuition (subst; reflexivity).
Qed.

Lemma log_activity_run_observed activity_type start_time end_time calories steps
    (w : World) :
  log_activity_post activity_type start_time end_time calories steps
    (run_outcome (log_activity activity_type start_time end_time calories steps) w)
    (run_events (log_activity activity_type start_time end_time calories steps) w).
Proof. apply wp_run, wp_log_activity. Qed.

(** C3, amended: in [log_activity] every failed call, except a not-found
    answer to an existence check, is followed by a printed line that ends
    with the error; the function returns [False] when a dataset patch fails
    or when the existence check of the activity data source fails with a
    status other than 404 or its creation fails; and no call of the run is a
    deletion, so nothing written earlier in the run is undone. *)
Theorem log_activity_failures activity_type start_time end_time calories steps
    (w : World) :
  let ran := log_activity activity_type start_time end_time calories steps in
  failures_printed (run_events ran w)
  /\ (forall c error,
        In (Called c (inl error)) (run_events ran w) ->
        aborts c error = true ->
        run_outcome ran w = Returned false)
  /\ (forall c r, In (Called c r) (run_events ran w) -> is_deletion c = false).
Proof.
  intros ran.
  destruct (log_activity_run_observed activity_type start_time end_time calories steps w)
    as (b & Hout & Hsub & Hfp & Hna & _).
  fold ran in Hout, Hsub, Hfp, Hna.
  split; [exact Hfp | split].
  - intros c error Hin Habort. rewrite Hout. destruct b; [| reflexivity].
    rewrite (no_abort_In _ _ _ (Hna eq_refl) Hin) in Habort. discriminate.
  - intros c r Hin. apply In_calls in Hin.
    eapply planned_calls_no_deletion, subsequence_In; eauto.
Qed.


Lemma log_activity_falsy_calories activity_type start_time end_time calories steps w :
  truthy_calories calories = false ->
  log_activity activity_type start_time end_time calories steps w
  = log_activity activity_type start_time end_time None steps w.
Proof.
  destruct calories as [calories_value |]; [| reflexivity].
  cbn [truthy_calories]. intros H. unfold log_activity.
  cbn [truthy_calories]. rewrite H. reflexivity.
Qed.

Lemma log_activity_falsy_steps activity_type start_time end_time calories steps w :
  truthy_steps steps = false ->
  log_activity activity_type start_time end_time calories steps w
  = log_activity activity_type start_time end_time calories None w.
Proof.
  destruct steps as [steps_value |]; [| reflexivity].
  cbn [truthy_steps]. intros H. unfold log_activity.
  cbn [truthy_steps]. rewrite H. reflexivity.
Qed.

End ActivityLoggerClaims.

Section ZeroArguments.

Context {auth : GoogleAuth} {dt : DateTime}.

Lemma data_source_ids_distinct :
  get_data_source_id "com.google.activity.segment"
    <> get_data_source_id "com.google.calories.expended"
  /\ get_data_source_id "com.google.activity.segment"
       <> get_data_source_id "com.google.step_count.delta"
  /\ get_data_source_id "com.google.calories.expended"
       <> get_data_source_id "com.google.step_count.delta".
Proof. repeat split; intros H; vm_compute in H; discriminate H. Qed.

Lemma planned_calls_without_calories activity_type start_time end_time calories steps c :
  truthy_calories calories = false ->
  In c (planned_calls activity_type start_time end_time calories steps) ->
  data_source_of c <> Some (get_data_source_id "com.google.calories.expended").
Proof.
  destruct data_source_ids_distinct as (Hac & Has & Hcs).
  intros Hfalsy.
  unfold planned_calls, planned_provisioning, planned_writes, provision_calls,
    patch_call, session_call, aggregate_call.
  rewrite Hfalsy.
  destruct calories as [calories_value |];
    [cbn [truthy_calories] in Hfalsy; rewrite Hfalsy |];
    destruct (truthy_steps steps), steps as [steps_value |];
    try destruct (negb (Z.eqb steps_value 0));
    cbn [app In]; intros H;
    repeat (destruct H as [<- | H]; [| try contradiction]);
    cbn [data_source_of]; rewrite ?new_data_source_id;
    congruence.
Qed.

Lemma planned_calls_without_steps activity_type start_time end_time calories steps c :
  truthy_steps steps = false ->
  In c (planned_calls activity_type start_time end_time calories steps) ->
  data_source_of c <> Some (get_data_source_id "com.google.step_count.delta").
Proof.
  destruct data_source_ids_distinct as (Hac & Has & Hcs).
  intros Hfalsy.
  unfold planned_calls, planned_provisioning, planned_writes, provision_calls,
    patch_call, session_call, aggregate_call.
  rewrite Hfalsy.
  destruct steps as [steps_value |];
    [cbn [truthy_steps] in Hfalsy; rewrite Hfalsy |];
    destruct (truthy_calories calories), calories as [calories_value |];
    try destruct (truthy_number calories_value);
    cbn [app In]; intros H;
    repeat (destruct H as [<- | H]; [| try contradiction]);
    cbn [data_source_of]; rewrite ?new_data_source_id;
    congruence.
Qed.

(** C10: an optional argument whose truth value is false, zero included,
    is treated as an absent one: the run is the run with [None] in its
    place; no call addresses the data source of that argument; with
    [steps] false no aggregation is requested; a run that returns [True]
    has patched the activity segment and updated the session; and with
    both arguments zero the call does return [True] when every remote call
    succeeds. *)
Theorem zero_is_absent activity_type start_time end_time calories steps (w : World) :
  let ran := log_activity activity_type start_time end_time calories steps in
  (truthy_calories calories = false ->
   ran w = log_activity activity_type start_time end_time None steps w
   /\ forall c r, In (Called c r) (run_events ran w) ->
        data_source_of c <> Some (get_data_source_id "com.google.calories.expended"))
  /\ (truthy_steps steps = false ->
      ran w = log_activity activity_type start_time end_time calories None w
      /\ (forall c r, In (Called c r) (run_events ran w) ->
            data_source_of c <> Some (get_data_source_id "com.google.step_count.delta"))
      /\ aggregations (run_events ran w) = [])
  /\ (run_outcome ran w = Returned true ->
      In (patch_call start_time end_time "com.google.activity.segment"
            (intVal activity_type)) (calls (run_events ran w))
      /\ In (session_call activity_type start_time end_time) (calls (run_events ran w)))
  /\ truthy_calories (Some (PyInt 0)) = false
  /\ truthy_calories (Some (PyFloat 0)) = false
  /\ truthy_calories (Some (PyFloat (-0))) = false
  /\ truthy_steps (Some 0) = false
  /\ run_outcome
       (log_activity activity_type start_time end_time (Some (PyInt 0)) (Some 0))
       (success_world start_time)
     = Returned true.
Proof.
  intros ran.
  destruct (log_activity_run_observed activity_type start_time end_time calories steps w)
    as (b & Hout & Hsub & _ & _ & Hagg & Hin).
  fold ran in Hout, Hsub, Hagg, Hin.
  split; [| split; [| split; [| repeat split]]].
  - intros Hfalsy. split; [now apply log_activity_falsy_calories |].
    intros c r Hc. apply In_calls in Hc.
    eapply planned_calls_without_calories; [eassumption |].
    eapply subsequence_In; eauto.
  - intros Hfalsy. split; [now apply log_activity_falsy_steps | split].
    + intros c r Hc. apply In_calls in Hc.
      eapply planned_calls_without_steps; [eassumption |].
      eapply subsequence_In; eauto.
    + rewrite Hagg, Hfalsy. reflexivity.
  - rewrite Hout. intros [= ->]. now apply Hin.
Qed.

End ZeroArguments.

Lemma zero_is_absent_witness :
  let w := stub_world (Some "valid") api_ok in
  let ran := log_activity 8 stub_start_time stub_end_time (Some (PyFloat 0)) (Some 0) in
  ran w = log_activity 8 stub_start_time stub_end_time None (Some 0) w
  /\ ran w = log_activity 8 stub_start_time stub_end_time (Some (PyFloat 0)) None w
  /\ aggregations (run_events ran w) = []
  /\ In (session_call 8 stub_start_time stub_end_time) (calls (run_events ran w)).
Proof.
  intros w ran.
  pose proof (zero_is_absent 8 stub_start_time stub_end_time
                (Some (PyFloat 0)) (Some 0) w) as (Hcalories & Hsteps & Htrue & _).
  split; [| split; [| split]].
  - apply Hcalories. reflexivity.
  - apply Hsteps. reflexivity.
  - apply Hsteps. reflexivity.
  - apply Htrue. reflexivity.
Defined.

Lemma log_activity_failures_witness :
  let w := stub_world (Some "valid") (api_failing is_patch 500) in
  let ran := log_activity 8 stub_start_time stub_end_time (Some (PyInt 250)) (Some 3500) in
  run_outcome ran w = Returned false
  /\ is_deletion (patch_call stub_start_time stub_end_time "com.google.activity.segment"
                    (intVal 8)) = false.
Proof.
  intros w ran.
  pose proof (log_activity_failures 8 stub_start_time stub_end_time
                (Some (PyInt 250)) (Some 3500) w) as (_ & Habort & Hdeletion).
  split.
  - apply (Habort (@patch_call StubDateTime stub_start_time stub_end_time
                     "com.google.activity.segment" (intVal 8)) (http_error 500));
      [vm_compute; auto 10 | reflexivity].
  - apply (Hdeletion _ (inl (http_error 500))). vm_compute. auto 10.
Defined.

(** C3 as stated fails: the existence check of the calories data source is
    answered with status 500, and [log_activity] returns [True]. *)
Lemma log_activity_true_despite_failure :
  let w := stub_world (Some "valid")
             (api_failing (is_existence_check_of "com.google.calories.expended") 500) in
  let ran := log_activity 8 stub_start_time stub_end_time (Some (PyInt 250)) None in
  In (Called (DataSourcesGet "me" (get_data_source_id "com.google.calories.expended"))
        (inl (http_error 500)))
     (run_events ran w)
  /\ run_outcome ran w = Returned true.
Proof. vm_compute. auto 10. Qed.


(** ** Error handling across the operations *)

Section ErrorHandling.

Context {auth : GoogleAuth} {dt : DateTime}.

Lemma planned_calls_NoDup activity_type start_time end_time calories steps :
  NoDup (planned_calls activity_type start_time end_time calories steps).
Proof.
  destruct data_source_ids_distinct as (Hac & Has & Hcs).
  unfold planned_calls, planned_provisioning, planned_writes, provision_calls,
    patch_call, session_call, aggregate_call.
  destruct (truthy_calories calories), (truthy_steps steps),
    calories as [calories_value |], steps as [steps_value |];
    try destruct (truthy_number calories_value);
    try destruct (negb (Z.eqb steps_value 0));
    cbn [app];
    repeat (apply NoDup_cons;
            [ cbn [In]; intros H;
              repeat (destruct H as [H | H];
                      [ first [ discriminate H
                              | injection H; intros;
                                rewrite ?new_data_source_id in *; congruence ]
                      | ]);
              exact H
            | ]);
    apply NoDup_nil.
Qed.

Lemma wp_log_session fitness_service activity_type start_time end_time :
  wp (log_session fitness_service activity_type start_time end_time)
     (single_call_post (session_call activity_type start_time end_time)).
Proof.
  unfold log_session. do 3 wp_step; do 3 wp_step; cbv beta iota.
  - exists true. cbn. repeat split; auto; try discriminate.
    intros [error [H | [H | H]]]; try discriminate H; contradiction.
  - exists false. cbn. repeat split; auto.
    + right. eexists; eexists. split; [reflexivity | solve_ends_with].
    + intros _. exists error. auto.
Qed.

Lemma wp_request_data_aggregation fitness_service start_time end_time :
  wp (request_data_aggregation fitness_service start_time end_time)
     (single_call_post (aggregate_call start_time end_time)).
Proof.
  unfold request_data_aggregation. do 3 wp_step; do 3 wp_step; cbv beta iota.
  - exists true. cbn. repeat split; auto; try discriminate.
    intros [error [H | [H | H]]]; try discriminate H; contradiction.
  - exists false. cbn. repeat split; auto.
    + right. eexists; eexists. split; [reflexivity | solve_ends_with].
    + intros _. exists error. auto.
Qed.

Lemma provisioned_failures data_type_name application_name r evs :
  provisioned data_type_name application_name r evs ->
  NoDup (calls evs)
  /\ (r = None <->
      exists c error, In (Called c (inl error)) evs /\ handled_silently c error = false).
Proof.
  destruct 1 as [response | error response H404 | error create_error H404 | error H404];
    cbn [calls In handled_silently]; (split; [repeat constructor; cbn [In]; intuition discriminate |]).
  - split; [discriminate |].
    intros (c & e & [H | [H | H]] & _); try discriminate H; contradiction.
  - split; [discriminate |].
    intros (c & e & [H | [H | [H | [H | H]]]] & Hs); try discriminate H;
      try contradiction.
    injection H as <- <-. cbn in Hs. rewrite H404 in Hs. discriminate.
  - split; [intros _ | reflexivity].
    exists (DataSourcesCreate "me" (new_data_source data_type_name application_name)),
      create_error. cbn. auto.
  - split; [intros _ | reflexivity].
    exists (DataSourcesGet "me" (get_data_source_id data_type_name)), error.
    cbn. split; [auto |]. now apply Z.eqb_neq.
Qed.

Lemma session_deletions_calls listed evs :
  session_deletions listed evs -> length (calls evs) = length (session_deletes evs).
Proof. induction 1; cbn; auto. Qed.

Lemma dataset_deletions_calls dataset_id listed evs :
  dataset_deletions dataset_id listed evs ->
  length (calls evs) = length (dataset_deletes evs).
Proof. induction 1; cbn; auto. Qed.

Lemma cleanup_shape_calls evs :
  cleanup_shape evs ->
  length (calls evs)
  = (2 + length (session_deletes evs) + length (dataset_deletes evs))%nat.
Proof.
  intros (authorization & header & sessions & datasets & -> & Hauth & Hsp & Hdp).
  destruct (auth_only_observed _ Hauth) as (Ha0 & Ha1 & Ha2 & _).
  change (Printed header :: sessions ++ datasets ++ [Printed "Cleanup completed"])%list
    with ([Printed header] ++ sessions ++ datasets ++ [Printed "Cleanup completed"])%list.
  rewrite !calls_app, !session_deletes_app, !dataset_deletes_app, Ha0, Ha1, Ha2.
  cbn [calls session_deletes dataset_deletes app]. rewrite !app_nil_r, !length_app.
  destruct (session_phase_observed _ Hsp) as (_ & -> & _).
  destruct (dataset_phase_observed _ Hdp) as (_ & -> & _).
  cbn [length]. rewrite Nat.add_0_r.
  assert (Hs : length (calls sessions) = S (length (session_deletes sessions))).
  { destruct Hsp; cbn; auto. f_equal.
    now apply session_deletions_calls with (listed := listed). }
  assert (Hd : length (calls datasets) = S (length (dataset_deletes datasets))).
  { destruct Hdp; cbn; auto. f_equal.
    now apply dataset_deletions_calls with (dataset_id := dataset_id) (listed := listed). }
  rewrite Hs, Hd. lia.
Qed.

(** C9, amended: every [HttpError] of a remote call is caught by the
    operation that issued the call, so each of the five operations returns a
    value; every failure is followed by a printed line that ends with the
    error, except a 404 answer to an existence check and a 404 answer to a
    dataset deletion; no call is retried; [create_data_source] returns
    [None] exactly when a call failed other than by such a 404,
    [log_session] and [request_data_aggregation] return [False] exactly when
    their call failed, [log_activity] returns [False] when a dataset patch or
    the provisioning of the activity data source failed, and
    [clean_up_todays_activities] returns [True] whatever failed. *)
Theorem remote_failures_are_caught :
  (forall fitness_service data_type_name application_name w,
     let ran := create_data_source fitness_service data_type_name application_name in
     exists r,
       run_outcome ran w = Returned r
       /\ failures_printed (run_events ran w)
       /\ NoDup (calls (run_events ran w))
       /\ (r = None <->
           exists c error,
             In (Called c (inl error)) (run_events ran w)
             /\ handled_silently c error = false))
  /\ (forall fitness_service activity_type start_time end_time w,
        let ran := log_session fitness_service activity_type start_time end_time in
        single_call_post (session_call activity_type start_time end_time)
          (run_outcome ran w) (run_events ran w))
  /\ (forall fitness_service start_time end_time w,
        let ran := request_data_aggregation fitness_service start_time end_time in
        single_call_post (aggregate_call start_time end_time)
          (run_outcome ran w) (run_events ran w))
  /\ (forall activity_type start_time end_time calories steps w,
        let ran := log_activity activity_type start_time end_time calories steps in
        exists b,
          run_outcome ran w = Returned b
          /\ failures_printed (run_events ran w)
          /\ NoDup (calls (run_events ran w))
          /\ (forall c error,
                In (Called c (inl error)) (run_events ran w) ->
                aborts c error = true -> b = false))
  /\ (forall w,
        let ran := clean_up_todays_activities in
        run_outcome ran w = Returned true
        /\ failures_printed (run_events ran w)
        /\ session_deletes (run_events ran w)
           = map item_id (listed_sessions (run_events ran w))
        /\ dataset_deletes (run_events ran w)
           = map item_dataStreamId (filter ours (listed_data_sources (run_events ran w)))
        /\ length (calls (run_events ran w))
           = (2 + length (session_deletes (run_events ran w))
              + length (dataset_deletes (run_events ran w)))%nat).
Proof.
  split; [| split; [| split; [| split]]].
  - intros fitness_service data_type_name application_name w ran.
    destruct (wp_run _ _ (wp_create_data_source fitness_service data_type_name
                            application_name) w) as (r & Hout & Hshape).
    fold ran in Hout, Hshape. exists r.
    destruct (provisioned_observed _ _ _ _ Hshape) as (_ & _ & Hfp & _).
    destruct (provisioned_failures _ _ _ _ Hshape) as (Hnd & Hnone).
    auto.
  - intros fitness_service activity_type start_time end_time w ran.
    apply wp_run, wp_log_session.
  - intros fitness_service start_time end_time w ran.
    apply wp_run, wp_request_data_aggregation.
  - intros activity_type start_time end_time calories steps w ran.
    destruct (log_activity_run_observed activity_type start_time end_time calories
                steps w) as (b & Hout & Hsub & Hfp & Hna & _).
    fold ran in Hout, Hsub, Hfp, Hna. exists b.
    split; [exact Hout | split; [exact Hfp | split]].
    + eapply subsequence_NoDup; [exact Hsub | apply planned_calls_NoDup].
    + intros c error Hin Habort. destruct b; [| reflexivity].
      rewrite (no_abort_In _ _ _ (Hna eq_refl) Hin) in Habort. discriminate.
  - intros w ran.
    destruct (wp_run _ _ wp_clean_up_todays_activities w) as [Hout Hshape].
    fold ran in Hout, Hshape.
    destruct (cleanup_shape_observed _ Hshape) as (Hs & Hd & Hfp & _).
    split; [exact Hout | split; [exact Hfp | split; [exact Hs | split; [exact Hd |]]]].
    now apply cleanup_shape_calls.
Qed.

End ErrorHandling.

Lemma remote_failures_are_caught_witness :
  let w := stub_world (Some "valid") (api_failing is_patch 500) in
  let ran := log_activity 8 stub_start_time stub_end_time (Some (PyInt 250)) (Some 3500) in
  exists b, run_outcome ran w = Returned b /\ b = false.
Proof.
  intros w ran.
  destruct (proj1 (proj2 (proj2 (proj2 (@remote_failures_are_caught StubAuth StubDateTime))))
              8 stub_start_time stub_end_time (Some (PyInt 250)) (Some 3500) w)
    as (b & Hout & _ & _ & Habort).
  exists b. split; [exact Hout |].
  apply (Habort (@patch_call StubDateTime stub_start_time stub_end_time
                   "com.google.activity.segment" (intVal 8)) (http_error 500));
    [vm_compute; auto 10 | reflexivity].
Defined.

(** C9 as stated fails: during this cleanup the deletion of a session fails
    with status 500 and the deletion of a dataset with status 404; after the
    latter nothing is printed, the next event being the next call; and the
    routine returns [True]. *)
Lemma cleanup_true_despite_failures :
  let w := stub_world (Some "valid") (api_listing 500 404) in
  let evs := run_events clean_up_todays_activities w in
  In (Called (SessionsDelete "me" "s1") (inl (http_error 500))) evs
  /\ (exists before after,
        evs = (before
               ++ [ Called (DatasetsDelete "me"
                              (get_data_source_id "com.google.step_count.delta")
                              "1699920000000000000-1700006400000000000")
                      (inl (http_error 404));
                    Called (DatasetsDelete "me"
                              (get_data_source_id "com.google.calories.expended")
                              "1699920000000000000-1700006400000000000")
                      (inr ok_response) ]
               ++ after)%list)
  /\ run_outcome clean_up_todays_activities w = Returned true.
Proof.
  split; [vm_compute; auto 10 | split; [| reflexivity]].
  eexists [_; _; _; _; _; _; _]. eexists. vm_compute. reflexivity.
Qed.

(** * Further properties of the code *)

(** ** Identifiers and the marker *)

(** X1: the identifier determines the data-type name: two names with the
    same identifier are the same name. *)
Theorem get_data_source_id_injective (n1 n2 : string) :
  get_data_source_id n1 = get_data_source_id n2 -> n1 = n2.
Proof.
  unfold get_data_source_id, PROJECT_NUMBER. intros H.
  assert (Hlen : String.length n1 = String.length n2).
  { apply (f_equal String.length) in H. rewrite !length_append in H.
    cbn [String.length] in H. lia. }
  apply append_inj_l in H. now apply append_eq_length in H.
Qed.

Lemma get_data_source_id_injective_witness :
  "com.google.step_count.delta" = "com.google.step_count.delta".
Proof.
  apply (get_data_source_id_injective "com.google.step_count.delta"
           "com.google.step_count.delta").
  reflexivity.
Defined.

(** X2: every data source [create_data_source] can create, whatever the
    data-type name and the application name, carries the marker by which
    [clean_up_todays_activities] selects the data sources whose dataset it
    deletes. *)
Theorem created_data_sources_carry_the_marker (data_type_name application_name : string) :
  created_by_our_script
    (ds_dataStreamId (new_data_source data_type_name application_name)) = true.
Proof.
  rewrite new_data_source_id. apply created_by_our_script_spec.
  unfold get_data_source_id, PROJECT_NUMBER. split.
  - rewrite <- (append_assoc "derived:" data_type_name). rewrite <- (append_assoc _ ":").
    apply is_substring_intro.
  - exists ("derived:" ++ data_type_name ++ ":394921715331:"),
      (":gfit-b100:1000001:" ++ data_type_name).
    rewrite !append_assoc. reflexivity.
Qed.

(** X3: the identifier is assembled from the parts of the creation request
    in the order type, data-type name, project number, device manufacturer,
    device model, device uid, stream name; the request carries that
    identifier and the application name it was given. *)
Theorem data_source_id_matches_creation_body (data_type_name application_name : string) :
  let body := new_data_source data_type_name application_name in
  get_data_source_id data_type_name
  = ds_type body ++ ":" ++ dt_name (ds_dataType body) ++ ":" ++ PROJECT_NUMBER ++ ":"
      ++ dev_manufacturer (ds_device body) ++ ":" ++ dev_model (ds_device body) ++ ":"
      ++ dev_uid (ds_device body) ++ ":" ++ ds_dataStreamName body
  /\ ds_dataStreamId body = get_data_source_id data_type_name
  /\ app_name (ds_application body) = application_name.
Proof.
  unfold new_data_source.
  repeat match goal with |- context [if ?b then _ else _] => destruct b end;
    repeat split.
Qed.

(** ** The credential file *)

Section CredentialFile.

Context {auth : GoogleAuth} {dt : DateTime}.

Lemma run_events_trace {A : Type} (m : M A) (w : World) (evs : list Event) :
  trace (snd (m w)) = (trace w ++ evs)%list -> run_events m w = evs.
Proof.
  intros H. unfold run_events. rewrite H.
  now rewrite skipn_app, skipn_all, Nat.sub_diag.
Qed.

Lemma bind_returned {A B : Type} (m : M A) (k : A -> M B) (w w1 : World) (a : A) :
  m w = (Returned a, w1) -> bind m k w = k a w1.
Proof. unfold bind. now intros ->. Qed.

(** A run of [get_credentials]: it returns, adds authorization steps only,
    and either leaves the files as they are or writes [token.json]. *)
Lemma get_credentials_run (w : World) :
  exists creds evs,
    get_credentials w
    = (Returned creds,
       {| clock := clock w;
          files := files (snd (get_credentials w));
          remote := remote w;
          token_endpoint := token_endpoint w;
          consent := consent w;
          trace := (trace w ++ evs)%list |})
    /\ auth_only evs
    /\ ((evs = [] /\ files (snd (get_credentials w)) = files w
         /\ stored_credentials w = Some creds /\ valid creds = true)
        \/ (evs <> [] /\
            files (snd (get_credentials w))
            = fun p => if String.eqb p "token.json" then Some (to_json creds)
                       else files w p)).
Proof.
  unfold stored_credentials, get_credentials, bind, path_exists, read, ret, refresh,
    run_local_server, write.
  destruct (files w "token.json") as [token |] eqn:Hfile; cbn; rewrite ?Hfile; cbn.
  - destruct (valid (from_authorized_user_info token)) eqn:Hvalid; cbn.
    + exists (from_authorized_user_info token), []. rewrite app_nil_r.
      split; [now destruct w |]. split; [exact I |]. left. auto.
    + destruct (expired (from_authorized_user_info token)
                && truthy_str (refresh_token (from_authorized_user_info token))); cbn.
      * eexists; eexists. split; [reflexivity |]. split; [exact I |]. right.
        split; [discriminate | reflexivity].
      * eexists; eexists. split; [reflexivity |]. split; [exact I |]. right.
        split; [discriminate | reflexivity].
  - eexists; eexists. split; [reflexivity |]. split; [exact I |]. right.
    split; [discriminate | reflexivity].
Qed.


(** X5: the credential that [get_credentials] returns is found again by
    the next run: when it is valid and the library reads back what it
    serialises, a second run returns the same credential and changes
    nothing, so no refresh and no interactive flow runs twice. *)
Theorem get_credentials_second_run (w : World) (creds : Credentials) :
  run_outcome get_credentials w = Returned creds ->
  valid creds = true ->
  from_authorized_user_info (to_json creds) = creds ->
  get_credentials (snd (get_credentials w))
  = (Returned creds, snd (get_credentials w)).
Proof.
  intros Hout Hvalid Hround.
  destruct (get_credentials_run w) as (creds' & evs & Hrun & Hauth & Hcases).
  unfold run_outcome in Hout. rewrite Hrun in Hout. injection Hout as ->.
  apply get_credentials_stored_valid; [| exact Hvalid].
  unfold stored_credentials.
  destruct Hcases as [(_ & -> & Hstored & _) | (_ & ->)]; [exact Hstored |].
  cbn. now rewrite Hround.
Qed.

End CredentialFile.


Lemma get_credentials_second_run_witness :
  let w := stub_world (Some "expired refreshable") api_ok in
  get_credentials (snd (get_credentials w))
  = (Returned (stub_of_text "valid"), snd (get_credentials w)).
Proof.
  intros w.
  apply (@get_credentials_second_run StubAuth StubDateTime w (stub_of_text "valid"));
    reflexivity.
Defined.

(** ** What the operations leave alone *)

Section LocalState.

Context {auth : GoogleAuth} {dt : DateTime}.

Lemma same_outside_refl (w : World) : same_outside w w.
Proof. repeat split. Qed.

Lemma same_outside_trans (w1 w2 w3 : World) :
  same_outside w1 w2 -> same_outside w2 w3 -> same_outside w1 w3.
Proof.
  unfold same_outside. intros (? & ? & ? & ? & ?) (? & ? & ? & ? & ?).
  repeat split; etransitivity; eauto.
Qed.

Lemma kept_ret {A : Type} (a : A) : local_state_kept (ret a).
Proof. intros w. apply same_outside_refl. Qed.

Lemma kept_print (line : string) : local_state_kept (print line).
Proof. intros w. repeat split. Qed.

Lemma kept_now : local_state_kept now.
Proof. intros w. repeat split. Qed.

Lemma kept_execute (fitness_service : Service) (c : Call) :
  local_state_kept (execute fitness_service c).
Proof.
  intros w. unfold execute. destruct (remote w fitness_service (trace w) c); repeat split.
Qed.

Lemma kept_after {A B : Type} (m : M A) (k : A -> M B) :
  (forall a, local_state_kept (k a)) ->
  forall w, same_outside (snd (m w)) (snd (bind m k w)).
Proof.
  intros Hk w. unfold bind. destruct (m w) as [[a | exn] w1]; cbn.
  - apply Hk.
  - apply same_outside_refl.
Qed.

Lemma kept_bind {A B : Type} (m : M A) (k : A -> M B) :
  local_state_kept m -> (forall a, local_state_kept (k a)) ->
  local_state_kept (bind m k).
Proof.
  intros Hm Hk w. eapply same_outside_trans; [apply Hm | now apply kept_after].
Qed.

Lemma kept_try_except {A : Type} (body : M A) (handler : HttpError -> M A) :
  local_state_kept body -> (forall error, local_state_kept (handler error)) ->
  local_state_kept (try_except body handler).
Proof.
  intros Hb Hh w. unfold try_except. specialize (Hb w).
  destruct (body w) as [[a | [error | path]] w1]; cbn in *; auto.
  eapply same_outside_trans; [exact Hb | apply Hh].
Qed.

Lemma kept_for_each {A : Type} (l : list A) (body : A -> M unit) :
  (forall x, local_state_kept (body x)) -> local_state_kept (for_each l body).
Proof.
  intros Hbody. induction l as [| x l IH]; cbn [for_each].
  - apply kept_ret.
  - apply kept_bind; auto.
Qed.

End LocalState.

Ltac kept :=
  repeat first
    [ apply kept_ret | apply kept_print | apply kept_now | apply kept_execute
    | apply kept_bind; [| intros ]
    | apply kept_try_except; [| intros ]
    | apply kept_for_each; intros
    | match goal with
      | |- local_state_kept (if ?b then _ else _) => destruct b
      | |- local_state_kept (match ?x with Some _ => _ | None => _ end) => destruct x
      end ].

Section LocalStateOfOperations.

Context {auth : GoogleAuth} {dt : DateTime}.

Lemma kept_create_data_source fitness_service data_type_name application_name :
  local_state_kept (create_data_source fitness_service data_type_name application_name).
Proof. unfold create_data_source. kept. Qed.

Lemma kept_log_session fitness_service activity_type start_time end_time :
  local_state_kept (log_session fitness_service activity_type start_time end_time).
Proof. unfold log_session. kept. Qed.

Lemma kept_request_data_aggregation fitness_service start_time end_time :
  local_state_kept (request_data_aggregation fitness_service start_time end_time).
Proof. unfold request_data_aggregation. kept. Qed.

Lemma log_activity_after_credentials activity_type start_time end_time calories steps w :
  same_outside (snd (get_credentials w))
    (snd (log_activity activity_type start_time end_time calories steps w)).
Proof.
  unfold log_activity. apply kept_after. intros credentials. cbv zeta.
  apply kept_bind; [apply kept_create_data_source | intros rA].
  apply kept_bind; [destruct (truthy_calories calories);
                    [apply kept_create_data_source | apply kept_ret] | intros rC].
  apply kept_bind; [destruct (truthy_steps steps);
                    [apply kept_create_data_source | apply kept_ret] | intros rS].
  destruct (as_truthy rA); [| kept].
  apply kept_try_except; [| intros; kept].
  apply kept_bind; [apply kept_execute | intros _].
  apply kept_bind.
  { destruct calories as [v |]; [| kept]. destruct (as_truthy rC); kept. }
  intros _. apply kept_bind.
  { destruct steps as [v |]; [| kept]. destruct (as_truthy rS); kept. }
  intros _. apply kept_bind; [apply kept_log_session | intros _].
  apply kept_bind; [| intros; kept].
  destruct (truthy_steps steps); [| kept].
  apply kept_bind; [apply kept_request_data_aggregation | intros; kept].
Qed.

Lemma cleanup_after_credentials w :
  same_outside (snd (get_credentials w)) (snd (clean_up_todays_activities w)).
Proof.
  unfold clean_up_todays_activities. apply kept_after. intros credentials. cbv zeta.
  kept.
Qed.

(** X6: the operations act on the Fitness API and on the console only:
    [create_data_source], [log_session] and [request_data_aggregation]
    leave the files, the clock and the authorization state as they find
    them, and [log_activity] and [clean_up_todays_activities] leave them as
    their call of [get_credentials] left them; so no file is written but
    [token.json], by [get_credentials]. *)
Theorem operations_keep_local_state :
  (forall fitness_service data_type_name application_name,
     local_state_kept
       (create_data_source fitness_service data_type_name application_name))
  /\ (forall fitness_service activity_type start_time end_time,
        local_state_kept
          (log_session fitness_service activity_type start_time end_time))
  /\ (forall fitness_service start_time end_time,
        local_state_kept
          (request_data_aggregation fitness_service start_time end_time))
  /\ (forall activity_type start_time end_time calories steps w,
        same_outside (snd (get_credentials w))
          (snd (log_activity activity_type start_time end_time calories steps w)))
  /\ (forall w,
        same_outside (snd (get_credentials w)) (snd (clean_up_todays_activities w))).
Proof.
  split; [| split; [| split; [| split]]].
  - apply kept_create_data_source.
  - apply kept_log_session.
  - apply kept_request_data_aggregation.
  - apply log_activity_after_credentials.
  - apply cleanup_after_credentials.
Qed.

End LocalStateOfOperations.

(** ** The calls of a cleanup *)

Section CleanupCalls.

Context {auth : GoogleAuth} {dt : DateTime}.

Lemma session_deletions_exact listed evs :
  session_deletions listed evs ->
  calls evs = map (fun session => SessionsDelete "me" (item_id session)) listed.
Proof. induction 1; cbn; now rewrite ?IHsession_deletions. Qed.

Lemma dataset_deletions_exact dataset_id listed evs :
  dataset_deletions dataset_id listed evs ->
  calls evs
  = map (fun data_source =>
           DatasetsDelete "me" (item_dataStreamId data_source) dataset_id)
      (filter ours listed).
Proof.
  unfold ours. induction 1; cbn; rewrite ?H; cbn; now rewrite ?IHdataset_deletions.
Qed.

Lemma wp_session_phase_calls (fitness_service : Service) (startTime endTime : string) :
  wp (try_except
        (bind (execute fitness_service (SessionsList "me" startTime endTime))
           (fun sessions =>
              match resp_session sessions with
              | Some listed =>
                  for_each listed (fun session =>
                    try_except
                      (bind (execute fitness_service
                               (SessionsDelete "me" (item_id session)))
                         (fun _ => print ("Deleted session " ++ item_id session)))
                      (fun error =>
                         print ("Error deleting session " ++ item_id session ++ ": "
                                  ++ text error)))
              | None => print "No sessions found for today"
              end))
        (fun error => print ("Error listing sessions: " ++ text error)))
     (fun o evs =>
        o = Returned tt
        /\ calls evs
           = SessionsList "me" startTime endTime
             :: map (fun session => SessionsDelete "me" (item_id session))
                  (listed_sessions evs)
        /\ listed_data_sources evs = []).
Proof.
  do 3 wp_step.
  - cbv beta iota. destruct (resp_session response) as [listed |] eqn:Hlisted.
    + eapply wp_conseq; [apply wp_session_deletions |].
      intros o evs [-> H]. split; [reflexivity |]. cbn. rewrite Hlisted.
      destruct (session_deletions_observed _ _ H) as (_ & _ & -> & -> & _).
      rewrite app_nil_r, (session_deletions_exact _ _ H). auto.
    + wp_step. cbn. rewrite Hlisted. auto.
  - wp_step. cbn. auto.
Qed.

Lemma wp_dataset_phase_calls (fitness_service : Service) (dataset_id : string) :
  wp (try_except
        (bind (execute fitness_service (DataSourcesList "me"))
           (fun data_sources_result =>
              match resp_dataSource data_sources_result with
              | Some listed =>
                  for_each listed (fun data_source =>
                    if created_by_our_script (item_dataStreamId data_source) then
                      try_except
                        (bind (execute fitness_service
                                 (DatasetsDelete "me" (item_dataStreamId data_source)
                                    dataset_id))
                           (fun _ =>
                              print ("Deleted dataset for "
                                       ++ item_dataStreamId data_source)))
                        (fun error =>
                           if negb (Z.eqb (status error) 404) then
                             print ("Error deleting dataset for "
                                      ++ item_dataStreamId data_source
                                      ++ ": " ++ text error)
                           else ret tt)
                    else ret tt)
              | None => print "No data sources found"
              end))
        (fun error => print ("Error listing data sources: " ++ text error)))
     (fun o evs =>
        o = Returned tt
        /\ calls evs
           = DataSourcesList "me"
             :: map (fun data_source =>
                       DatasetsDelete "me" (item_dataStreamId data_source) dataset_id)
                  (filter ours (listed_data_sources evs))
        /\ listed_sessions evs = []).
Proof.
  do 3 wp_step.
  - cbv beta iota. destruct (resp_dataSource response) as [listed |] eqn:Hlisted.
    + eapply wp_conseq; [apply wp_dataset_deletions |].
      intros o evs [-> H]. split; [reflexivity |]. cbn. rewrite Hlisted.
      destruct (dataset_deletions_observed _ _ _ H) as (_ & _ & -> & -> & _).
      rewrite app_nil_r, (dataset_deletions_exact _ _ _ H). auto.
    + wp_step. cbn. rewrite Hlisted. auto.
  - wp_step. cbn. auto.
Qed.

(** A run of the cleanup, with the calls it issues. *)
Lemma cleanup_run (w : World) :
  exists evs,
    trace (snd (clean_up_todays_activities w)) = (trace w ++ evs)%list
    /\ calls evs
       = cleanup_calls (clock w) (listed_sessions evs) (listed_data_sources evs).
Proof.
  destruct (get_credentials_run w) as (creds & evs0 & Hrun & Hauth & _).
  destruct (auth_only_observed _ Hauth) as (Hc0 & _ & _ & _ & Hs0 & Hd0 & _).
  unfold clean_up_todays_activities.
  rewrite (bind_returned _ _ _ _ _ Hrun).
  match goal with
  | |- context [bind now ?k ?w1] =>
      change (bind now k w1) with (k (clock w) w1); set (w' := w1)
  end.
  cbv beta zeta.
  match goal with
  | |- context [snd (?m w')] =>
      assert (Hwp : wp m (fun o evs =>
                 calls evs = cleanup_calls (clock w) (listed_sessions evs)
                               (listed_data_sources evs)))
  end.
  { do 2 wp_step. wp_step.
    eapply wp_conseq; [apply wp_session_phase_calls |].
    intros o sessions (-> & Hsc & Hsd).
    wp_step. eapply wp_conseq; [apply wp_dataset_phase_calls |].
    intros o datasets (-> & Hdc & Hds).
    do 3 wp_step.
    change (?a :: sessions ++ ?rest)%list with ([a] ++ sessions ++ rest)%list.
    rewrite !calls_app, !listed_sessions_app, !listed_data_sources_app.
    rewrite Hsc, Hsd, Hdc, Hds. cbn. rewrite !app_nil_r. unfold cleanup_calls.
    reflexivity. }
  destruct (Hwp w') as (evs & Htrace & Hcalls). exists (evs0 ++ evs)%list.
  rewrite Htrace. subst w'. cbn [trace]. rewrite <- app_assoc. split; [reflexivity |].
  rewrite !calls_app, !listed_sessions_app, !listed_data_sources_app, Hc0, Hs0, Hd0.
  exact Hcalls.
Qed.

(** X7: the calls of a cleanup, in order, are: the listing of the sessions
    from the midnight before the current time to the midnight after it,
    both in ISO format followed by [Z]; the deletion of each session that
    listing returned; the listing of the data sources; and, for each data
    source returned that carries the marker, the deletion of the dataset
    that spans the same two midnights in nanoseconds.  Both listings are
    issued in every run, and nothing is created or modified. *)
Theorem cleanup_calls_exact (w : World) :
  let evs := run_events clean_up_todays_activities w in
  calls evs = cleanup_calls (clock w) (listed_sessions evs) (listed_data_sources evs).
Proof.
  destruct (cleanup_run w) as (evs & Htrace & Hcalls).
  now rewrite (run_events_trace _ _ _ Htrace).
Qed.

End CleanupCalls.

(** ** The value [log_activity] returns *)

Section Verdict.

Context {auth : GoogleAuth} {dt : DateTime}.

Lemma session_updates_app (a b : list Event) :
  session_updates (a ++ b) = (session_updates a ++ session_updates b)%list.
Proof.
  induction a as [| [line | [] r | |] a IH]; cbn; rewrite ?IH; reflexivity.
Qed.

Lemma patches_confirmed_incl (known known' : list string) (evs : list Event) :
  incl known known' -> patches_confirmed known evs -> patches_confirmed known' evs.
Proof.
  revert known known'.
  induction evs as [| [line | [] [error | response] | |] evs IH]; cbn;
    intros known known' Hincl;
    auto; try (now apply IH);
    try (intros [Hin H]; split; [now apply Hincl | now apply (IH known)]);
    apply IH; intros x [<- | Hx]; cbn; auto.
Qed.

Lemma patches_confirmed_app (known : list string) (a b : list Event) :
  patches_confirmed known a -> patches_confirmed (confirmed a ++ known) b ->
  patches_confirmed known (a ++ b).
Proof.
  revert known.
  induction a as [| [line | [] [error | response] | |] a IH]; cbn; intros known;
    auto; try (intros [Hin Ha] Hb; split; [exact Hin | now apply IH]);
    intros Ha Hb; apply IH; auto;
    (eapply patches_confirmed_incl; [| exact Hb]);
    intros x Hx; cbn in Hx; rewrite in_app_iff in Hx; rewrite in_app_iff; cbn; tauto.
Qed.

Lemma patches_confirmed_before known before userId data_source_id dataset_id body r after :
  patches_confirmed known
    (before ++ Called (DatasetsPatch userId data_source_id dataset_id body) r :: after) ->
  In data_source_id (confirmed before ++ known).
Proof.
  revert known.
  induction before as [| [line | [] [error | response] | |] before IH]; cbn;
    intros known H; try (now apply IH); try (now apply IH; tauto).
  - tauto.
  - apply IH in H. rewrite in_app_iff in *. cbn in H. tauto.
  - apply IH in H. rewrite in_app_iff in *. cbn in H. tauto.
Qed.

Lemma auth_only_confirms (evs : list Event) :
  auth_only evs ->
  session_updates evs = [] /\ confirmed evs = []
  /\ forall known, patches_confirmed known evs.
Proof.
  induction evs as [| [line | c r | |] evs IH]; cbn; intros H; try contradiction; auto.
Qed.

Lemma provisioned_confirms data_type_name application_name r evs :
  provisioned data_type_name application_name r evs ->
  session_updates evs = []
  /\ (forall known, patches_confirmed known evs)
  /\ incl (known_of r) (confirmed evs)
  /\ (data_type_name = "com.google.activity.segment" -> r = None ->
      exists c error, In (Called c (inl error)) evs /\ aborts c error = true).
Proof.
  destruct 1 as [response | error response H404 | error create_error H404 | error H404];
    cbn [session_updates patches_confirmed confirmed known_of];
    rewrite ?new_data_source_id;
    (split; [reflexivity | split; [auto | split]]).
  - intros x [<- | []]. now left.
  - intros _ [=].
  - intros x [<- | []]. now left.
  - intros _ [=].
  - intros x [].
  - intros -> _. eexists; eexists. split; [right; right; left; reflexivity |].
    cbn [aborts]. rewrite new_data_source_id. apply String.eqb_refl.
  - intros x [].
  - intros -> _. eexists; eexists. split; [left; reflexivity |].
    cbn [aborts]. rewrite String.eqb_refl. apply Z.eqb_neq in H404. now rewrite H404.
Qed.

Lemma optionally_provisioned_confirms flag data_type_name r evs :
  optionally_provisioned flag data_type_name r evs ->
  session_updates evs = []
  /\ (forall known, patches_confirmed known evs)
  /\ incl (known_of r) (confirmed evs).
Proof.
  unfold optionally_provisioned. destruct flag.
  - intros H. destruct (provisioned_confirms _ _ _ _ H) as (? & ? & ? & _). auto.
  - intros [-> ->]. split; [reflexivity | split; [intros known; exact I |]].
    intros x Hx. destruct Hx.
Qed.

(** The verdict post-condition of [log_activity], from what is known of the
    three provisionings and of the events [tail] that follow them. *)
Lemma log_activity_verdict_intro activity_type start_time end_time
    evs0 evsA rA evsC flagC rC evsS flagS rS (b : bool) tail :
  auth_only evs0 ->
  provisioned "com.google.activity.segment" default_application_name rA evsA ->
  optionally_provisioned flagC "com.google.calories.expended" rC evsC ->
  optionally_provisioned flagS "com.google.step_count.delta" rS evsS ->
  session_updates tail
  = (if b then [ session_record activity_type start_time end_time ] else []) ->
  (b = false ->
   rA = None \/ exists c error, In (Called c (inl error)) tail /\ aborts c error = true) ->
  patches_confirmed (known_of rS ++ known_of rC ++ known_of rA) tail ->
  log_activity_verdict_post activity_type start_time end_time
    (Returned b) (evs0 ++ evsA ++ evsC ++ evsS ++ tail).
Proof.
  intros H0 HA HC HS Hses Hfail Hpatch.
  destruct (auth_only_confirms _ H0) as (H01 & H02 & H03).
  destruct (provisioned_confirms _ _ _ _ HA) as (HA1 & HA2 & HA3 & HA4).
  destruct (optionally_provisioned_confirms _ _ _ _ HC) as (HC1 & HC2 & HC3).
  destruct (optionally_provisioned_confirms _ _ _ _ HS) as (HS1 & HS2 & HS3).
  exists b. split; [reflexivity | split; [| split]].
  - rewrite !session_updates_app, H01, HA1, HC1, HS1. exact Hses.
  - intros Hb. destruct (Hfail Hb) as [HrA | (c & error & Hin & Habort)].
    + destruct (HA4 eq_refl HrA) as (c & error & Hin & Habort).
      exists c, error. rewrite !in_app_iff. auto.
    + exists c, error. rewrite !in_app_iff. auto 10.
  - repeat (apply patches_confirmed_app; [auto |]).
    eapply patches_confirmed_incl; [| exact Hpatch].
    intros x Hx. rewrite !in_app_iff in *. rewrite H02.
    destruct Hx as [Hx | [Hx | Hx]]; auto 10.
Qed.

Ltac contradictory_tests :=
  cbn [truthy_steps truthy_calories] in *;
  match goal with
  | H : false = true |- _ => discriminate H
  | H : true = false |- _ => discriminate H
  | H : ?x = true, H' : ?x = false |- _ => rewrite H in H'; discriminate H'
  end.

Ltac walk :=
  repeat first
    [ wp_step
    | match goal with
      | |- wp (match ?x with Some _ => _ | None => _ end) _ => is_var x; destruct x
      | |- wp (if ?b then _ else _) _ => destruct b eqn:?
      | |- wp (log_session _ _ _ _) _ => unfold log_session
      | |- wp (request_data_aggregation _ _ _) _ => unfold request_data_aggregation
      end ].

Ltac find_event :=
  cbn [app In]; repeat first [ left; reflexivity | right ].

Ltac verdict_goal :=
  lazymatch goal with
  | |- session_updates _ = _ => cbn [app session_updates]; reflexivity
  | |- _ -> _ \/ _ =>
      let Hb := fresh "Hb" in
      intros Hb;
      first [ discriminate Hb
            | left; reflexivity
            | right; eexists; eexists; split; [find_event | reflexivity] ]
  | |- patches_confirmed _ _ =>
      cbn [app patches_confirmed known_of In]; auto 10
  end.

Ltac verdict_leaf :=
  first [ contradictory_tests
        | eapply log_activity_verdict_intro; try eassumption; verdict_goal ].

Lemma wp_log_activity_verdict (activity_type : Z) (start_time end_time : datetime)
    (calories : option number) (steps : option Z) :
  wp (log_activity activity_type start_time end_time calories steps)
     (log_activity_verdict_post activity_type start_time end_time).
Proof.
  unfold log_activity.
  wp_step. eapply wp_conseq; [apply wp_get_credentials |].
  intros o evs0 [[creds ->] Hauth].
  wp_step. eapply wp_conseq; [apply wp_create_data_source |].
  intros o evsA [rA [-> HA]].
  wp_step.
  assert (Hopt : forall fitness_service (flag : bool) data_type_name,
    wp (if flag
        then create_data_source fitness_service data_type_name default_application_name
        else ret None)
       (fun o evs => exists r, o = Returned r /\
          optionally_provisioned flag data_type_name r evs)).
  { intros fitness_service [] data_type_name;
      [apply wp_create_data_source
      | apply wp_ret; eexists; split; [reflexivity |]; split; reflexivity]. }
  eapply wp_conseq; [apply Hopt |]. intros o evsC [rC [-> HC]].
  wp_step. eapply wp_conseq; [apply Hopt |]. intros o evsS [rS [-> HS]].
  clear Hopt. cbv beta iota.
  destruct (provisioned_observed _ _ _ _ HA) as ([-> | ->] & _);
  destruct (optionally_provisioned_observed _ _ _ _ HC eq_refl) as ([-> | [HflagC ->]] & _);
  destruct (optionally_provisioned_observed _ _ _ _ HS eq_refl) as ([-> | [HflagS ->]] & _);
  rewrite ?as_truthy_data_source_id; cbn [as_truthy]; walk.
  all: verdict_leaf.
Qed.

Lemma log_activity_verdict_observed activity_type start_time end_time calories steps
    (w : World) :
  log_activity_verdict_post activity_type start_time end_time
    (run_outcome (log_activity activity_type start_time end_time calories steps) w)
    (run_events (log_activity activity_type start_time end_time calories steps) w).
Proof. apply wp_run, wp_log_activity_verdict. Qed.

(** X8: what decides the value [log_activity] returns.  It returns
    [False] exactly when a dataset patch failed, or the existence check of
    the activity data source failed with a status other than 404, or the
    creation of that data source failed; and the session is updated, once
    and with the record of the activity, exactly when it returns [True]:
    a run that returns [False] has written no session. *)
Theorem log_activity_return_value activity_type start_time end_time calories steps
    (w : World) :
  let ran := log_activity activity_type start_time end_time calories steps in
  exists b,
    run_outcome ran w = Returned b
    /\ session_updates (run_events ran w)
       = (if b then [ session_record activity_type start_time end_time ] else [])
    /\ (b = false <->
        exists c error,
          In (Called c (inl error)) (run_events ran w) /\ aborts c error = true).
Proof.
  intros ran.
  destruct (log_activity_verdict_observed activity_type start_time end_time calories
              steps w) as (b & Hout & Hses & Hfail & _).
  destruct (log_activity_run_observed activity_type start_time end_time calories steps w)
    as (b' & Hout' & _ & _ & Hna & _).
  fold ran in Hout, Hses, Hfail, Hout', Hna.
  rewrite Hout in Hout'. injection Hout' as <-.
  exists b. split; [exact Hout | split; [exact Hses | split; [exact Hfail |]]].
  intros (c & error & Hin & Habort). destruct b; [| reflexivity].
  rewrite (no_abort_In _ _ _ (Hna eq_refl) Hin) in Habort. discriminate.
Qed.

(** X9: [log_activity] patches a data source only after the existence
    check or the creation of that data source succeeded earlier in the same
    run. *)
Theorem log_activity_patches_confirmed_sources activity_type start_time end_time
    calories steps (w : World) before userId data_source_id dataset_id body r after :
  run_events (log_activity activity_type start_time end_time calories steps) w
  = (before ++ Called (DatasetsPatch userId data_source_id dataset_id body) r
       :: after)%list ->
  In data_source_id (confirmed before).
Proof.
  intros Hrun.
  destruct (log_activity_verdict_observed activity_type start_time end_time calories
              steps w) as (b & _ & _ & _ & Hpatches).
  rewrite Hrun in Hpatches. apply patches_confirmed_before in Hpatches.
  now rewrite app_nil_r in Hpatches.
Qed.



Lemma subsequence_length {A : Type} (l l' : list A) :
  subsequence l l' -> (length l <= length l')%nat.
Proof. induction 1; cbn; lia. Qed.

(** X11: the calls of [log_activity] are issued in program order, each at
    most once: the existence check and the creation of the activity, the
    calories and the steps data source, then the three patches, the session
    update and the aggregation request; so a run issues at most four calls,
    and three more when [calories] is true and four more when [steps] is
    true. *)
Theorem log_activity_calls_in_program_order activity_type start_time end_time
    calories steps (w : World) :
  let issued := calls (run_events (log_activity activity_type start_time end_time
                                     calories steps) w) in
  subsequence issued (planned_calls activity_type start_time end_time calories steps)
  /\ (length issued
      <= 4 + (if truthy_calories calories then 3 else 0)
         + (if truthy_steps steps then 4 else 0))%nat.
Proof.
  intros issued.
  destruct (log_activity_run_observed activity_type start_time end_time calories steps w)
    as (b & _ & Hsub & _).
  fold issued in Hsub. split; [exact Hsub |].
  apply subsequence_length in Hsub. etransitivity; [exact Hsub |].
  unfold planned_calls, planned_provisioning, planned_writes, provision_calls.
  destruct calories as [calories_value |], steps as [steps_value |];
    cbn [truthy_calories truthy_steps];
    try destruct (truthy_number calories_value);
    try destruct (negb (Z.eqb steps_value 0)); cbn; lia.
Qed.

End Verdict.

Lemma log_activity_return_value_witness :
  let w := stub_world (Some "valid") (api_failing is_patch 500) in
  let ran := log_activity 8 stub_start_time stub_end_time (Some (PyInt 250)) (Some 3500) in
  exists b, run_outcome ran w = Returned b /\ b = false.
Proof.
  intros w ran.
  destruct (@log_activity_return_value StubAuth StubDateTime
              8 stub_start_time stub_end_time (Some (PyInt 250)) (Some 3500) w)
    as (b & Hout & _ & Hfalse).
  exists b. split; [exact Hout |].
  apply Hfalse.
  exists (@patch_call StubDateTime stub_start_time stub_end_time
            "com.google.activity.segment" (intVal 8)), (http_error 500).
  split; [vm_compute; auto 10 | reflexivity].
Defined.

Lemma log_activity_patches_confirmed_sources_witness :
  In (get_data_source_id "com.google.activity.segment")
     (confirmed
        [ Called (DataSourcesGet "me" (get_data_source_id "com.google.activity.segment"))
            (inr ok_response);
          Printed ("Data source " ++ get_data_source_id "com.google.activity.segment"
                     ++ " already exists.") ]).
Proof.
  apply (@log_activity_patches_confirmed_sources StubAuth StubDateTime
           8 stub_start_time stub_end_time None None
           (stub_world (Some "valid") api_ok)
           _ "me" _ "1699994600000000000-1699996400000000000"
           (single_point_dataset (get_data_source_id "com.google.activity.segment")
              1699994600000000000 1699996400000000000
              "com.google.activity.segment" (intVal 8))
           (inr ok_response)
           [ Called (@session_call StubDateTime 8 stub_start_time stub_end_time)
               (inr ok_response);
             Printed "Session created successfully";
             Printed "Data points inserted successfully" ]).
  vm_compute. reflexivity.
Defined.


(** ** The script *)

Section ScriptFacts.

Context {auth : GoogleAuth} {dt : DateTime} {td : TimeDelta}.

(** A run of [log_activity] followed by the verdict of the script. *)
Lemma reported_run activity_type start_time end_time calories steps (w : World) :
  let ran := log_activity activity_type start_time end_time calories steps in
  let reported :=
    exit_of (bind ran (fun success =>
                         if success then print "Activity logged successfully!"
                         else print "Failed to log activity.") w) in
  exists b,
    run_outcome ran w = Returned b
    /\ fst reported = Completed
    /\ trace (snd reported)
       = (trace w ++ run_events ran w
            ++ [ Printed (if b then "Activity logged successfully!"
                          else "Failed to log activity.") ])%list.
Proof.
  intros ran reported.
  destruct (wp_log_activity activity_type start_time end_time calories steps w)
    as (evs & Htrace & (b & Hout & _)).
  fold ran in Htrace, Hout. exists b.
  rewrite (run_events_trace _ _ _ Htrace).
  subst reported. unfold bind, run_outcome in *.
  destruct (ran w) as [o w1]. cbn in Hout, Htrace. subst o.
  destruct b; cbn; rewrite Htrace, <- app_assoc; auto.
Qed.

Lemma planned_calls_no_listing activity_type start_time end_time calories steps c :
  In c (planned_calls activity_type start_time end_time calories steps) ->
  is_listing c = false.
Proof.
  unfold planned_calls, planned_provisioning, planned_writes, provision_calls,
    patch_call, session_call, aggregate_call.
  destruct (truthy_calories calories), (truthy_steps steps),
    calories as [calories_value |], steps as [steps_value |];
    try destruct (truthy_number calories_value);
    try destruct (negb (Z.eqb steps_value 0));
    cbn [app In]; intuition (subst; reflexivity).
Qed.

Lemma cleanup_calls_kinds current sessions data_sources c :
  In c (cleanup_calls current sessions data_sources) ->
  is_listing c || is_deletion c = true.
Proof.
  unfold cleanup_calls. cbn [In]. rewrite in_app_iff. cbn [In]. rewrite !in_map_iff.
  intros [<- | [(session & <- & _) | [<- | (data_source & <- & _)]]]; reflexivity.
Qed.

Lemma reported_verdict activity_type start_time end_time calories steps (w : World) :
  let reported :=
    exit_of (bind (log_activity activity_type start_time end_time calories steps)
               (fun success =>
                  if success then print "Activity logged successfully!"
                  else print "Failed to log activity.") w) in
  fst reported = Completed
  /\ exists before,
       subsequence (calls before)
         (planned_calls activity_type start_time end_time calories steps)
       /\ ((skipn (length (trace w)) (trace (snd reported))
            = (before ++ [ Printed "Activity logged successfully!" ])%list
            /\ (exists session, session_updates before = [ session ])
            /\ no_abort before)
           \/ (skipn (length (trace w)) (trace (snd reported))
               = (before ++ [ Printed "Failed to log activity." ])%list
               /\ session_updates before = []
               /\ exists c error,
                    In (Called c (inl error)) before /\ aborts c error = true)).
Proof.
  intros reported.
  destruct (reported_run activity_type start_time end_time calories steps w)
    as (b & Hout & Hexit & Htrace).
  destruct (log_activity_verdict_observed activity_type start_time end_time calories
              steps w) as (b1 & Hout1 & Hses & Hfail & _).
  destruct (log_activity_run_observed activity_type start_time end_time calories steps w)
    as (b2 & Hout2 & Hsub & _ & Hna & _).
  rewrite Hout in Hout1, Hout2. injection Hout1 as <-. injection Hout2 as <-.
  fold reported in Hexit, Htrace. split; [exact Hexit |].
  exists (run_events (log_activity activity_type start_time end_time calories steps) w).
  split; [exact Hsub |].
  rewrite Htrace, skipn_app, skipn_all, Nat.sub_diag. cbn [skipn app].
  destruct b; [left | right]; eauto.
Qed.

Lemma reported_calls activity_type start_time end_time calories steps (w : World) c :
  In c (calls (skipn (length (trace w))
                 (trace (snd (exit_of
                    (bind (log_activity activity_type start_time end_time calories steps)
                       (fun success =>
                          if success then print "Activity logged successfully!"
                          else print "Failed to log activity.") w)))))) ->
  is_listing c || is_deletion c = false.
Proof.
  destruct (reported_verdict activity_type start_time end_time calories steps w)
    as (_ & before & Hsub & [(-> & _) | (-> & _)]);
    rewrite calls_app, app_nil_r; intros Hin;
    apply (subsequence_In _ _ _ Hsub) in Hin;
    now rewrite (planned_calls_no_listing _ _ _ _ _ _ Hin),
      (planned_calls_no_deletion _ _ _ _ _ _ Hin).
Qed.


(** X13: the commands do not overlap: every call of the [cleanup] command
    is a listing or a deletion, and no call of the [log] command or of the
    run without a command is one; so only [cleanup] deletes, and [cleanup]
    creates and modifies nothing. *)
Theorem main_calls_by_command (args : Namespace) (w : World) (c : Call) :
  In c (calls (script_events args w)) ->
  is_listing c || is_deletion c
  = match args with
    | command_cleanup => true
    | _ => false
    end.
Proof.
  unfold script_events, main.
  destruct args as [| | args].
  - destruct (minus_hours (clock w) (PyInt 1)) as [end_time |];
      [| cbn; rewrite skipn_all; intros []].
    destruct (minus_minutes end_time 30) as [start_time |];
      [| cbn; rewrite skipn_all; intros []].
    apply reported_calls.
  - destruct (cleanup_run w) as (evs & Htrace & Hcalls).
    destruct (clean_up_todays_activities w) as [[b | exn] w1]; cbn in *;
      rewrite Htrace, skipn_app, skipn_all, Nat.sub_diag; cbn [skipn app];
      rewrite Hcalls; apply cleanup_calls_kinds.
  - destruct (minus_hours (clock w) (args_hours_ago args)) as [end_time |];
      [| cbn; rewrite skipn_all; intros []].
    destruct (minus_minutes end_time (args_duration args)) as [start_time |];
      [| cbn; rewrite skipn_all; intros []].
    apply reported_calls.
Qed.

End ScriptFacts.


Lemma main_calls_by_command_witness :
  let w := stub_world (Some "valid") (api_listing 404 404) in
  In (SessionsDelete "me" "s2") (calls (script_events command_cleanup w))
  /\ is_listing (SessionsDelete "me" "s2") || is_deletion (SessionsDelete "me" "s2") = true.
Proof.
  intros w.
  assert (Hin : In (SessionsDelete "me" "s2") (calls (script_events command_cleanup w)))
    by (vm_compute; auto 10).
  split; [exact Hin |].
  exact (@main_calls_by_command StubAuth StubDateTime StubTimeDelta command_cleanup w
           (SessionsDelete "me" "s2") Hin).
Defined.
